(** * WebSearch: engine fall-back and retry orchestration

    A shallow embedding of [app/tool/web_search.py] (class [WebSearch]) and
    the properties of its engine-order resolver, per-engine retrier,
    all-engines trial, result normalisation and outer retry loop.

    Python strings are modelled by Rocq strings (sequences of 8-bit
    characters): the model is exact on ASCII text, which covers the engine
    identifiers of the registry and the URLs used in the examples. *)

From Stdlib Require Import ZArith Ascii String DecimalString.
From stdpp Require Import base decidable option list strings gmap fin_maps.

Local Open Scope Z_scope.
Local Open Scope string_scope.
Local Open Scope list_scope.

(** ** Python string primitives *)

Module Py.

(** [c.isascii() and c.isupper()] on one character. *)
Definition is_upper (c : ascii) : bool :=
  let n := nat_of_ascii c in ((65 <=? n) && (n <=? 90))%nat.

Definition is_lower (c : ascii) : bool :=
  let n := nat_of_ascii c in ((97 <=? n) && (n <=? 122))%nat.

Definition is_digit (c : ascii) : bool :=
  let n := nat_of_ascii c in ((48 <=? n) && (n <=? 57))%nat.

(** [c.isascii() and c.isalpha()]. *)
Definition is_alpha (c : ascii) : bool := is_upper c || is_lower c.

Definition is_ascii (c : ascii) : bool := (nat_of_ascii c <? 128)%nat.

Definition lower_char (c : ascii) : ascii :=
  if is_upper c then ascii_of_nat (nat_of_ascii c + 32) else c.

(** [str.lower()]. *)
Fixpoint lower (s : string) : string :=
  match s with
  | EmptyString => EmptyString
  | String c s' => String (lower_char c) (lower s')
  end.

(** Truth value of a string: the empty string is falsy. *)
Definition str_bool (s : string) : bool :=
  match s with EmptyString => false | String _ _ => true end.

(** Truth value of a list: the empty list is falsy. *)
Definition list_bool {A} (l : list A) : bool :=
  match l with [] => false | _ :: _ => true end.

(** [str(n)] for a non-negative integer. *)
Definition str_of_nat (n : nat) : string :=
  NilZero.string_of_uint (Nat.to_uint n).

(** [sep.join(parts)]. *)
Fixpoint join (sep : string) (parts : list string) : string :=
  match parts with
  | [] => ""
  | [p] => p
  | p :: rest => p +:+ sep +:+ join sep rest
  end.

(** [enumerate(l)], counting from [start]. *)
Fixpoint enumerate_from {A} (start : nat) (l : list A) : list (nat * A) :=
  match l with
  | [] => []
  | x :: l' => (start, x) :: enumerate_from (S start) l'
  end.

Definition enumerate {A} (l : list A) : list (nat * A) := enumerate_from 0 l.

(** [range(n)] for an integer [n]: empty when [n <= 0]. *)
Definition range (n : Z) : list Z := Z.of_nat <$> seq 0 (Z.to_nat n).

End Py.

(** ** The engine registry and the configuration *)

(** The four engine instances of [app.tool.search]; what each of them does
    when called is external and enters the model later as a parameter. *)
Inductive WebSearchEngine :=
  | GoogleSearchEngine
  | BaiduSearchEngine
  | DuckDuckGoSearchEngine
  | BingSearchEngine.

(** [WebSearch._search_engine]: the fixed registry, keyed by lowercase
    identifier. *)
Definition _search_engine : gmap string WebSearchEngine :=
  <["google" := GoogleSearchEngine]>
  (<["baidu" := BaiduSearchEngine]>
  (<["duckduckgo" := DuckDuckGoSearchEngine]>
  (<["bing" := BingSearchEngine]> ∅))).

(** [name in self._search_engine]. *)
Definition known (name : string) : Prop := is_Some (_search_engine !! name).

(** Modelled from the spec: the settings object [config.search_config] of
    [app.config], which is not part of the sources at hand.  Every field is
    optional (section 6 of the specification); [None] stands for an absent
    attribute, and for [engine] and [fallback_engines] also for the value
    [None]. *)
Module Config.
Record SearchSettings := {
  engine : option string;
  fallback_engines : option (list string);
  retry_delay : option Z;
  max_retries : option Z
}.

Record AppConfig := { search_config : option SearchSettings }.
End Config.
Abbreviation AppConfig := Config.AppConfig.

(** The preferred identifier read by [_get_engine_order]: ["google"] unless
    the configuration supplies a non-empty [engine], which is lowercased. *)
Definition preferred_engine (config : AppConfig) : string :=
  match Config.search_config config with
  | Some sc =>
      match Config.engine sc with
      | Some e => if Py.str_bool e then Py.lower e else "google"
      | None => "google"
      end
  | None => "google"
  end.

(** The fallback identifiers read by [_get_engine_order]: empty unless the
    configuration supplies a non-empty list, which is lowercased. *)
Definition fallback_list (config : AppConfig) : list string :=
  match Config.search_config config with
  | Some sc =>
      match Config.fallback_engines sc with
      | Some l => if Py.list_bool l then Py.lower <$> l else []
      | None => []
      end
  | None => []
  end.

(** One iteration of the loop over [fallbacks]. *)
Definition add_fallback (engine_order : list string) (fallback : string)
  : list string :=
  if bool_decide (known fallback)
     && negb (bool_decide (fallback ∈ engine_order))
  then engine_order ++ [fallback]
  else engine_order.

(** [WebSearch._get_engine_order]. *)
Definition _get_engine_order (config : AppConfig) : list string :=
  let preferred := preferred_engine config in
  let fallbacks := fallback_list config in
  let engine_order :=
    if bool_decide (known preferred) then [preferred] else [] in
  foldl add_fallback engine_order fallbacks.


(** The configuration names no fallback: the list is absent or empty. *)
Definition no_fallbacks (config : AppConfig) : Prop :=
  match Config.search_config config with
  | Some sc =>
      Config.fallback_engines sc = None ∨ Config.fallback_engines sc = Some []
  | None => True
  end.

(** The elements of [l], each kept at its first occurrence only. *)
Fixpoint first_occurrences (l : list string) : list string :=
  match l with
  | [] => []
  | x :: l' => x :: filter (λ y, y ≠ x) (first_occurrences l')
  end.

(** The keys of the registry, as the class body lists them. *)
Definition registry_keys : list string :=
  ["google"; "baidu"; "duckduckgo"; "bing"].

(** ** Exceptions and results *)

(** The exceptions of the model.  [EngineError] stands for any [Exception]
    raised by an engine client, [RetryError] for the error the retry
    decorator raises once its attempts are used up (it carries the last
    attempt's exception), [KeyError] for a failed registry lookup and
    [ValueError] for a failed URL parse. *)
Inductive exn :=
  | EngineError (msg : string)
  | RetryError (last_attempt : exn)
  | KeyError (key : string)
  | ValueError (msg : string).

Inductive result (A : Type) :=
  | Return (a : A)
  | Raise (e : exn).
Arguments Return {A} a.
Arguments Raise {A} e.

(** ** Result data *)

(** One entry of [structured_results]. *)
Record StructuredResult := {
  title : string;
  url : string;
  domain : string;
  snippet : string;
  favicon : string
}.

(** The [structured_data] dictionary; the ["engine"] key is present only in
    the dictionary built on success. *)
Record StructuredData := {
  query : string;
  engine : option string;
  results : list StructuredResult;
  display_type : string
}.

(** Modelled from the spec: [ToolResult] of [app.tool.base], which is not
    part of the sources at hand; it is built here from the two keyword
    arguments [output] and [structured_data]. *)
Record ToolResult := {
  output : string;
  structured_data : StructuredData
}.

(** What [execute] hands back: the [ToolResult] of a trial ([return links])
    or the bare empty list of its last line ([return []]). *)
Inductive ExecuteValue :=
  | ToolResultValue (links : ToolResult)
  | EmptyListValue.

(** ** Observable events *)

(** The trace of a run, in program order. *)
Inductive event :=
  | EvTrial
      (* entry into [_try_all_engines] *)
  | EvInfoAttempt (engine_name : string)
      (* [logger.info("Attempting search with ...")] *)
  | EvSearch (e : WebSearchEngine) (query : string) (num_results : Z)
             (outcome : result (list string))
      (* one call of [engine.perform_search] and how it ended *)
  | EvBackoff (delay : Z)
      (* the wait of the retry decorator between two attempts *)
  | EvPrintFailed (engine_name : string) (e : exn)
      (* [print("Search engine ... failed with error: ...")] *)
  | EvWarning (retry_delay retry_number max_retries : Z)
      (* [logger.warning("All search engines failed. Waiting ...")] *)
  | EvSleep (delay : Z)
      (* [asyncio.sleep(retry_delay)] in [execute] *)
  | EvError (max_retries : Z).
      (* [logger.error("All search engines failed after ... retries")] *)

(** ** URL splitting ([urllib.parse], CPython 3.12) *)

Module Url.

(** The part of a [ParseResult] the tool reads. *)
Record ParseResult := { scheme : string; netloc : string }.

(** [url.lstrip(_WHATWG_C0_CONTROL_OR_SPACE)]. *)
Fixpoint lstrip_c0_space (s : string) : string :=
  match s with
  | EmptyString => EmptyString
  | String c s' =>
      if (nat_of_ascii c <=? 32)%nat then lstrip_c0_space s' else s
  end.

(** Removal of tab, carriage return and line feed
    ([_UNSAFE_URL_BYTES_TO_REMOVE]). *)
Fixpoint remove_unsafe (s : string) : string :=
  match s with
  | EmptyString => EmptyString
  | String c s' =>
      let n := nat_of_ascii c in
      if ((n =? 9) || (n =? 10) || (n =? 13))%nat
      then remove_unsafe s'
      else String c (remove_unsafe s')
  end.

(** [c in s]. *)
Fixpoint contains (c : ascii) (s : string) : bool :=
  match s with
  | EmptyString => false
  | String d s' => Ascii.eqb c d || contains c s'
  end.

Fixpoint forallb_str (p : ascii -> bool) (s : string) : bool :=
  match s with
  | EmptyString => true
  | String c s' => p c && forallb_str p s'
  end.

(** [s.partition(c)]: the text before the first [c] and the text after
    it; [None] when [c] does not occur. *)
Fixpoint partition (c : ascii) (s : string) : option (string * string) :=
  match s with
  | EmptyString => None
  | String d s' =>
      if Ascii.eqb c d then Some (EmptyString, s')
      else match partition c s' with
           | Some (before, after) => Some (String d before, after)
           | None => None
           end
  end.

(** The text up to the first character satisfying [p]. *)
Fixpoint take_until (p : ascii -> bool) (s : string) : string :=
  match s with
  | EmptyString => EmptyString
  | String c s' => if p c then EmptyString else String c (take_until p s')
  end.

Definition scheme_char (c : ascii) : bool :=
  Py.is_alpha c || Py.is_digit c
  || Ascii.eqb c "+" || Ascii.eqb c "-" || Ascii.eqb c ".".

Definition is_delim (c : ascii) : bool :=
  Ascii.eqb c "/" || Ascii.eqb c "?" || Ascii.eqb c "#".

(** The scheme test of [urlsplit]: a colon at index [i > 0], a first
    character that is an ASCII letter and only scheme characters before
    the colon.  Gives the lowercased scheme and the text after the
    colon, or the empty scheme and the text unchanged. *)
Definition split_scheme (url : string) : string * string :=
  match partition ":" url with
  | Some (String c0 before_tl, after) =>
      if Py.is_alpha c0 && forallb_str scheme_char (String c0 before_tl)
      then (Py.lower (String c0 before_tl), after)
      else (EmptyString, url)
  | _ => (EmptyString, url)
  end.

(** [netloc.partition('[')[2].partition(']')[0]]. *)
Definition bracketed_host (netloc : string) : string :=
  let after := match partition "[" netloc with
               | Some (_, after) => after
               | None => EmptyString
               end in
  match partition "]" after with
  | Some (before, _) => before
  | None => after
  end.

Section Checks.
(** The two validity checks of [urllib.parse] that need tables outside
    this model: [_check_bracketed_host] (IPv6 and IPvFuture literals)
    and the NFKC test of [_checknetloc], which is reached only by a
    netloc with a non-ASCII character.  [true] means the check
    passes. *)
Variable check_bracketed_host : string -> bool.
Variable checknetloc_nfkc : string -> bool.

(** The netloc computed by [urlsplit], or the [ValueError] it raises. *)
Definition split_netloc (url : string) : result string :=
  match url with
  | String "/" (String "/" rest) =>
      let netloc := take_until is_delim rest in
      let has_open := contains "[" netloc in
      let has_close := contains "]" netloc in
      if (has_open && negb has_close) || (has_close && negb has_open)
      then Raise (ValueError "Invalid IPv6 URL")
      else if has_open && has_close
              && negb (check_bracketed_host (bracketed_host netloc))
      then Raise (ValueError "Invalid bracketed host")
      else if negb (Py.str_bool netloc) || forallb_str Py.is_ascii netloc
      then Return netloc
      else if checknetloc_nfkc netloc then Return netloc
      else Raise (ValueError "netloc contains invalid characters under NFKC normalization")
  | _ => Return EmptyString
  end.

(** [urlparse(url)], restricted to the scheme and the netloc. *)
Definition urlparse (url : string) : result ParseResult :=
  let url := remove_unsafe (lstrip_c0_space url) in
  let '(scheme, url) := split_scheme url in
  match split_netloc url with
  | Return netloc => Return {| scheme := scheme; netloc := netloc |}
  | Raise e => Raise e
  end.
End Checks.

End Url.

(** ** Sample environments

    Two scripted worlds used to run the model: in the first every engine is
    down; in the second Google raises on every call, Baidu answers with no
    link, DuckDuckGo answers with two links and Bing with one.  The state of
    the second world counts the calls made so far. *)

Definition down_search (e : WebSearchEngine) (query : string) (num_results : Z)
  (w : unit) : result (list string) * unit :=
  (Raise (EngineError "connection refused"), w).

Definition demo_search (e : WebSearchEngine) (query : string) (num_results : Z)
  (w : nat) : result (list string) * nat :=
  match e with
  | GoogleSearchEngine => (Raise (EngineError "timeout"), S w)
  | BaiduSearchEngine => (Return [], S w)
  | DuckDuckGoSearchEngine =>
      (Return ["https://example.com/page"; "http://[::1/broken"], S w)
  | BingSearchEngine => (Return ["https://www.bing.com/search?q=rust"], S w)
  end.

(** A world in which Google is down for its first three calls and answers
    with one link afterwards; the state counts the calls. *)
Definition flaky_search (e : WebSearchEngine) (query : string) (num_results : Z)
  (w : nat) : result (list string) * nat :=
  if (w <? 3)%nat then (Raise (EngineError "503"), S w)
  else (Return ["https://doc.rust-lang.org/book/"], S w).

Definition lenient (host : string) : bool := true.

(** Two truth values a [ToolResult] may have.  [object_bool] is the one
    Python gives an object whose class defines neither [__bool__] nor
    [__len__]: every object is true.  [results_bool] is true when the
    outcome has results, the reading under which an empty trial is
    retried. *)
Definition object_bool (r : ToolResult) : bool := true.

Definition results_bool (r : ToolResult) : bool :=
  Py.list_bool (results (structured_data r)).

Definition cfg_default : AppConfig := {| Config.search_config := None |}.

Definition cfg_demo : AppConfig :=
  {| Config.search_config := Some
       {| Config.engine := Some "Google";
          Config.fallback_engines :=
            Some ["Baidu"; "yahoo"; "DuckDuckGo"; "GOOGLE"; "baidu"; "Bing"];
          Config.retry_delay := Some 5;
          Config.max_retries := Some 2 |} |}.

Definition cfg_bing : AppConfig :=
  {| Config.search_config := Some
       {| Config.engine := Some "Bing";
          Config.fallback_engines := Some [];
          Config.retry_delay := None;
          Config.max_retries := None |} |}.

Definition cfg_no_retry : AppConfig :=
  {| Config.search_config := Some
       {| Config.engine := None;
          Config.fallback_engines := None;
          Config.retry_delay := None;
          Config.max_retries := Some 0 |} |}.

Definition cfg_unknown : AppConfig :=
  {| Config.search_config := Some
       {| Config.engine := Some "Yahoo";
          Config.fallback_engines := Some ["Ask"; "AltaVista"];
          Config.retry_delay := Some 1;
          Config.max_retries := Some 1 |} |}.

Definition cfg_negative : AppConfig :=
  {| Config.search_config := Some
       {| Config.engine := Some "google";
          Config.fallback_engines := None;
          Config.retry_delay := None;
          Config.max_retries := Some (-1) |} |}.

(** ** The orchestration *)

Section Orchestration.

(** The outside world: its state [W] and what a call of
    [engine.perform_search(query, num_results=num_results)], turned into a
    list, gives in a state: the links or an exception, and the next
    state.  Exceptions of engines are ordinary ones (subclasses of
    [Exception]). *)
Variable W : Type.
Variable perform_search :
  WebSearchEngine -> string -> Z -> W -> result (list string) * W.

(** The library checks of [Url]. *)
Variable check_bracketed_host : string -> bool.
Variable checknetloc_nfkc : string -> bool.

(** The truth value of a [ToolResult], tested by [if links:] in [execute].
    The class belongs to [app.tool.base], which is not part of the sources
    at hand, so the model takes its truth value as a parameter. *)
Variable ToolResult_bool : ToolResult -> bool.

(** *** A monad of state, trace and exceptions *)

Definition M (A : Type) : Type := W -> result A * W * list event.

Definition ret {A} (a : A) : M A := fun w => (Return a, w, []).

Definition raise {A} (e : exn) : M A := fun w => (Raise e, w, []).

Definition bind {A B} (m : M A) (k : A -> M B) : M B := fun w =>
  match m w with
  | (Return a, w1, t1) =>
      match k a w1 with (r, w2, t2) => (r, w2, t1 ++ t2) end
  | (Raise e, w1, t1) => (Raise e, w1, t1)
  end.

(** [try: m except Exception as e: handler e]. *)
Definition try_except {A} (m : M A) (handler : exn -> M A) : M A := fun w =>
  match m w with
  | (Return a, w1, t1) => (Return a, w1, t1)
  | (Raise e, w1, t1) =>
      match handler e w1 with (r, w2, t2) => (r, w2, t1 ++ t2) end
  end.

Definition emit (ev : event) : M unit := fun w => (Return tt, w, [ev]).

Notation "'let*' x ':=' m 'in' k" := (bind m (fun x => k))
  (at level 10, x name, m at level 100, k at level 200).
Notation "m ';;;' k" := (bind m (fun _ => k))
  (at level 100, k at level 200, right associativity).

(** *** The retry decorator ([tenacity.retry]) *)

(** [wait_exponential(multiplier, min, max)] applied to the number of the
    attempt that has just failed. *)
Definition wait_exponential (multiplier min max : Z) (attempt_number : Z)
  : Z :=
  Z.max (Z.max 0 min) (Z.min (multiplier * 2 ^ (attempt_number - 1)) max).

(** The loop of the decorator under [stop_after_attempt]: [remaining] is
    the number of attempts still allowed after the one numbered
    [attempt_number].  A failed attempt is followed by a wait and the next
    attempt, or, when none remains, by [RetryError]. *)
Fixpoint retry_from {A} (wait : Z -> Z) (remaining : nat)
  (attempt_number : Z) (fn : M A) : M A :=
  try_except fn (fun e =>
    match remaining with
    | O => raise (RetryError e)
    | S remaining' =>
        emit (EvBackoff (wait attempt_number)) ;;;
        retry_from wait remaining' (attempt_number + 1) fn
    end).

(** [@retry(stop=stop_after_attempt(n), wait=wait)]. *)
Definition retry {A} (stop_after_attempt : nat) (wait : Z -> Z) (fn : M A)
  : M A :=
  retry_from wait (stop_after_attempt - 1) 1 fn.

(** The body of [_perform_search_with_engine]: one call of the engine. *)
Definition call_engine (e : WebSearchEngine) (query : string)
  (num_results : Z) : M (list string) := fun w =>
  match perform_search e query num_results w with
  | (outcome, w') =>
      (outcome, w', [EvSearch e query num_results outcome])
  end.

(** [WebSearch._perform_search_with_engine], decorated. *)
Definition _perform_search_with_engine (e : WebSearchEngine)
  (query : string) (num_results : Z) : M (list string) :=
  retry 3 (wait_exponential 1 1 10) (call_engine e query num_results).

(** *** Normalisation *)

Definition favicon_url (domain : string) : string :=
  "https://www.google.com/s2/favicons?domain=" +:+ domain.

(** The entry built for [link] at index [i] of [enumerate(links)]. *)
Definition structured_result (i : nat) (link : string) : StructuredResult :=
  match Url.urlparse check_bracketed_host checknetloc_nfkc link with
  | Return parsed_url =>
      let domain := Url.netloc parsed_url in
      {| title := "Result " +:+ Py.str_of_nat (i + 1);
         url := link;
         domain := domain;
         snippet := "Found at " +:+ domain;
         favicon := favicon_url domain |}
  | Raise _ =>
      {| title := "Result " +:+ Py.str_of_nat (i + 1);
         url := link;
         domain := "unknown";
         snippet := "No description available";
         favicon := "" |}
  end.

Definition structured_results (links : list string)
  : list StructuredResult :=
  (fun p => structured_result (fst p) (snd p)) <$> Py.enumerate links.

Definition newline : string := String (ascii_of_nat 10) EmptyString.

Definition result_text (links : list string) : string :=
  Py.join newline
    ((fun p => Py.str_of_nat (fst p + 1) +:+ ". " +:+ snd p)
       <$> Py.enumerate links).

(** The [ToolResult] returned on success. *)
Definition found_result (query engine_name : string) (links : list string)
  : ToolResult :=
  {| output := "Search results for '" +:+ query +:+ "':" +:+ newline
               +:+ result_text links;
     structured_data :=
       {| query := query;
          engine := Some engine_name;
          results := structured_results links;
          display_type := "search_results" |} |}.

(** The [ToolResult] returned when no engine gave a link. *)
Definition empty_result (query : string) : ToolResult :=
  {| output := "No search results found for '" +:+ query +:+ "'.";
     structured_data :=
       {| query := query;
          engine := None;
          results := [];
          display_type := "search_results" |} |}.

(** *** The all-engines trial *)

(** The loop [for engine_name in engine_order] of [_try_all_engines]. *)
Fixpoint try_engines (engine_order : list string) (query : string)
  (num_results : Z) : M ToolResult :=
  match engine_order with
  | [] => ret (empty_result query)
  | engine_name :: rest =>
      match _search_engine !! engine_name with
      | None => raise (KeyError engine_name)
      | Some e =>
          let* found :=
            try_except
              (emit (EvInfoAttempt engine_name) ;;;
               let* links := _perform_search_with_engine e query num_results in
               if Py.list_bool links
               then ret (Some (found_result query engine_name links))
               else ret None)
              (fun err => emit (EvPrintFailed engine_name err) ;;; ret None)
          in
          match found with
          | Some r => ret r
          | None => try_engines rest query num_results
          end
      end
  end.

(** [WebSearch._try_all_engines]. *)
Definition _try_all_engines (config : AppConfig) (query : string)
  (num_results : Z) : M ToolResult :=
  emit EvTrial ;;;
  try_engines (_get_engine_order config) query num_results.

(** *** The outer retry loop *)

(** [retry_delay] as read by [execute]. *)
Definition configured_retry_delay (config : AppConfig) : Z :=
  match Config.search_config config with
  | Some sc => default 60 (Config.retry_delay sc)
  | None => 60
  end.

(** [max_retries] as read by [execute]. *)
Definition configured_max_retries (config : AppConfig) : Z :=
  match Config.search_config config with
  | Some sc => default 3 (Config.max_retries sc)
  | None => 3
  end.

(** The loop [for retry_count in range(max_retries + 1)] of [execute],
    followed by its last line [return []]. *)
Fixpoint execute_loop (retry_counts : list Z) (retry_delay max_retries : Z)
  (config : AppConfig) (query : string) (num_results : Z)
  : M ExecuteValue :=
  match retry_counts with
  | [] => ret EmptyListValue
  | retry_count :: rest =>
      let* links := _try_all_engines config query num_results in
      if ToolResult_bool links then ret (ToolResultValue links)
      else
        (if (retry_count <? max_retries)%Z
         then emit (EvWarning retry_delay (retry_count + 1) max_retries) ;;;
              emit (EvSleep retry_delay)
         else emit (EvError max_retries)) ;;;
        execute_loop rest retry_delay max_retries config query num_results
  end.

(** [WebSearch.execute]. *)
Definition execute (config : AppConfig) (query : string) (num_results : Z)
  : M ExecuteValue :=
  let retry_delay := configured_retry_delay config in
  let max_retries := configured_max_retries config in
  execute_loop (Py.range (max_retries + 1)) retry_delay max_retries
    config query num_results.

(** *** Reading a trace *)

(** The engines named by the "Attempting search" lines, in order. *)
Definition attempted (t : list event) : list string :=
  omap (fun ev => match ev with EvInfoAttempt n => Some n | _ => None end) t.

(** The engines whose [perform_search] was called, in order. *)
Definition searched (t : list event) : list WebSearchEngine :=
  omap (fun ev => match ev with EvSearch e _ _ _ => Some e | _ => None end) t.

(** The events of [execute] itself: trials started and sleeps between
    them. *)
Definition is_outer (ev : event) : bool :=
  match ev with EvTrial | EvSleep _ => true | _ => false end.

Definition outer (t : list event) : list event := List.filter is_outer t.

Definition trials (t : list event) : nat :=
  length (List.filter (fun ev => match ev with EvTrial => true | _ => false end) t).


(** The trace of [execute] seen from outside when every trial comes back
    empty: [len] trials with a sleep between two of them. *)
Definition empty_rounds (retry_delay : Z) (len : nat) : list event :=
  match len with
  | O => []
  | S k => EvTrial :: concat (replicate k [EvSleep retry_delay; EvTrial])
  end.

(** The waits of the retry decorator, in order. *)
Definition backoffs (t : list event) : list Z :=
  omap (fun ev => match ev with EvBackoff d => Some d | _ => None end) t.

(** The engines reported as failed by [print], in order. *)
Definition reported (t : list event) : list string :=
  omap (fun ev => match ev with EvPrintFailed n _ => Some n | _ => None end) t.

(** The query and the number of results each engine call was given. *)
Definition asked (t : list event) : list (string * Z) :=
  omap (fun ev => match ev with EvSearch _ q n _ => Some (q, n) | _ => None end) t.

(** The retry numbers of the "Waiting ... before retry" warnings, in order. *)
Definition warnings (t : list event) : list Z :=
  omap (fun ev => match ev with EvWarning _ k _ => Some k | _ => None end) t.

(** The "Giving up" errors, each with the number of retries it names. *)
Definition errors (t : list event) : list Z :=
  omap (fun ev => match ev with EvError m => Some m | _ => None end) t.

(** * Properties *)

(** ** The engine-order resolver *)

Lemma known_registry_keys name : known name ↔ name ∈ registry_keys.
Proof.
  unfold known, _search_engine, registry_keys.
  rewrite !lookup_insert_is_Some', lookup_empty, !elem_of_cons, elem_of_nil.
  split; [intros H | intros H].
  - destruct H as [H | [H | [H | [H | H]]]]; auto.
    destruct H as [x Hx]; discriminate.
  - destruct H as [H | [H | [H | [H | []]]]]; auto.
Qed.

Lemma first_occurrences_elem_of l x : x ∈ first_occurrences l ↔ x ∈ l.
Proof.
  induction l as [|y l IH]; simpl; [reflexivity|].
  rewrite !elem_of_cons, list_elem_of_filter, IH.
  destruct (decide (x = y)); intuition.
Qed.

Lemma first_occurrences_NoDup l : NoDup (first_occurrences l).
Proof.
  induction l as [|y l IH]; simpl; [constructor|].
  constructor.
  - rewrite list_elem_of_filter. intros [Hne _]. congruence.
  - apply NoDup_filter, IH.
Qed.

Lemma filter_not_in_nil (l : list string) : filter (λ y, y ∉ @nil string) l = l.
Proof.
  induction l as [|y l IH]; [reflexivity|].
  rewrite filter_cons_True by apply not_elem_of_nil. now rewrite IH.
Qed.

(** The loop over the fallbacks appends, in order, the known identifiers
    that are new. *)
Lemma foldl_add_fallback fallbacks : ∀ engine_order,
  foldl add_fallback engine_order fallbacks
  = engine_order
    ++ filter (λ y, y ∉ engine_order)
         (first_occurrences (filter known fallbacks)).
Proof.
  induction fallbacks as [|x l IH]; intros acc; simpl.
  - now rewrite app_nil_r.
  - unfold add_fallback at 2.
    destruct (decide (known x)) as [Hk | Hk].
    + rewrite (bool_decide_eq_true_2 _ Hk), (filter_cons_True _ _ _ Hk).
      simpl. destruct (decide (x ∈ acc)) as [Hin | Hin].
      * rewrite (bool_decide_eq_true_2 _ Hin). simpl.
        rewrite IH, (filter_cons_False _ x) by (intros Hn; exact (Hn Hin)).
        f_equal. rewrite list_filter_filter.
        apply list_filter_iff. intros y. split; [|tauto].
        intros Hy. split; [exact Hy | congruence].
      * rewrite (bool_decide_eq_false_2 _ Hin). simpl.
        rewrite IH, (filter_cons_True _ x) by exact Hin.
        rewrite <- app_assoc. simpl. do 2 f_equal.
        rewrite list_filter_filter.
        apply list_filter_iff. intros y.
        rewrite elem_of_app, list_elem_of_singleton. tauto.
    + rewrite (bool_decide_eq_false_2 _ Hk), (filter_cons_False _ _ _ Hk).
      simpl. apply IH.
Qed.

Lemma get_engine_order_first_occurrences config :
  _get_engine_order config
  = first_occurrences
      (filter known (preferred_engine config :: fallback_list config)).
Proof.
  unfold _get_engine_order. rewrite foldl_add_fallback.
  destruct (decide (known (preferred_engine config))) as [Hk | Hk].
  - rewrite (bool_decide_eq_true_2 _ Hk), (filter_cons_True _ _ _ Hk).
    simpl. f_equal. apply list_filter_iff. intros y.
    rewrite list_elem_of_singleton. tauto.
  - rewrite (bool_decide_eq_false_2 _ Hk), (filter_cons_False _ _ _ Hk).
    simpl. apply filter_not_in_nil.
Qed.

Lemma get_engine_order_known config name :
  name ∈ _get_engine_order config → known name.
Proof.
  rewrite get_engine_order_first_occurrences, first_occurrences_elem_of,
    list_elem_of_filter.
  tauto.
Qed.

Lemma get_engine_order_NoDup config : NoDup (_get_engine_order config).
Proof.
  rewrite get_engine_order_first_occurrences. apply first_occurrences_NoDup.
Qed.

Lemma registry_injective a b e :
  _search_engine !! a = Some e → _search_engine !! b = Some e → a = b.
Proof.
  intros Ha Hb.
  assert (Ka : a ∈ registry_keys)
    by (apply known_registry_keys; unfold known; rewrite Ha; eauto).
  assert (Kb : b ∈ registry_keys)
    by (apply known_registry_keys; unfold known; rewrite Hb; eauto).
  unfold registry_keys in Ka, Kb.
  rewrite !elem_of_cons, elem_of_nil in Ka, Kb.
  destruct Ka as [-> | [-> | [-> | [-> | []]]]];
    destruct Kb as [-> | [-> | [-> | [-> | []]]]];
    vm_compute in Ha, Hb; congruence.
Qed.

(** ** The per-engine retrier *)

(** The decorated call, written out: at most three calls of the engine,
    with waits of 1 and 2 between them. *)
Lemma perform_search_with_engine_unfold e query num_results w :
  _perform_search_with_engine e query num_results w =
  match perform_search e query num_results w with
  | (Return links, w1) =>
      (Return links, w1, [EvSearch e query num_results (Return links)])
  | (Raise e1, w1) =>
      match perform_search e query num_results w1 with
      | (Return links, w2) =>
          (Return links, w2,
           [EvSearch e query num_results (Raise e1); EvBackoff 1;
            EvSearch e query num_results (Return links)])
      | (Raise e2, w2) =>
          match perform_search e query num_results w2 with
          | (Return links, w3) =>
              (Return links, w3,
               [EvSearch e query num_results (Raise e1); EvBackoff 1;
                EvSearch e query num_results (Raise e2); EvBackoff 2;
                EvSearch e query num_results (Return links)])
          | (Raise e3, w3) =>
              (Raise (RetryError e3), w3,
               [EvSearch e query num_results (Raise e1); EvBackoff 1;
                EvSearch e query num_results (Raise e2); EvBackoff 2;
                EvSearch e query num_results (Raise e3)])
          end
      end
  end.
Proof.
  unfold _perform_search_with_engine, retry. simpl.
  unfold try_except, bind, emit, raise, call_engine.
  destruct (perform_search e query num_results w) as [[links | e1] w1];
    [reflexivity|].
  destruct (perform_search e query num_results w1) as [[links | e2] w2];
    [reflexivity|].
  destruct (perform_search e query num_results w2) as [[links | e3] w3];
    reflexivity.
Qed.

(** What the trace of a decorated call looks like. *)
Lemma perform_search_with_engine_trace e query num_results w r w' t :
  _perform_search_with_engine e query num_results w = (r, w', t) →
  attempted t = [] ∧ outer t = [] ∧ (∀ e', e' ∈ searched t → e' = e)
  ∧ (∀ links, r = Return links →
       ∃ t0, t = t0 ++ [EvSearch e query num_results (Return links)]).
Proof.
  rewrite perform_search_with_engine_unfold.
  destruct (perform_search e query num_results w) as [[l1 | e1] w1].
  { intros [= <- <- <-]. repeat split; simpl; try reflexivity.
    - intros e'. rewrite list_elem_of_singleton. auto.
    - intros links [= <-]. now exists []. }
  destruct (perform_search e query num_results w1) as [[l2 | e2] w2].
  { intros [= <- <- <-]. repeat split; simpl; try reflexivity.
    - intros e'. rewrite !elem_of_cons, elem_of_nil. intuition.
    - intros links [= <-]. now eexists [_; _]. }
  destruct (perform_search e query num_results w2) as [[l3 | e3] w3].
  { intros [= <- <- <-]. repeat split; simpl; try reflexivity.
    - intros e'. rewrite !elem_of_cons, elem_of_nil. intuition.
    - intros links [= <-]. now eexists [_; _; _; _]. }
  intros [= <- <- <-]. repeat split; simpl; try reflexivity.
  - intros e'. rewrite !elem_of_cons, elem_of_nil. intuition.
  - intros links [=].
Qed.

(** ** The all-engines trial *)

(** One iteration of the loop over the engines. *)
Lemma try_engines_cons engine_name rest query num_results w :
  try_engines (engine_name :: rest) query num_results w =
  match _search_engine !! engine_name with
  | None => (Raise (KeyError engine_name), w, [])
  | Some e =>
      match _perform_search_with_engine e query num_results w with
      | (Return links, w1, t1) =>
          if Py.list_bool links
          then (Return (found_result query engine_name links), w1,
                EvInfoAttempt engine_name :: t1)
          else
            match try_engines rest query num_results w1 with
            | (r, w2, t2) => (r, w2, EvInfoAttempt engine_name :: t1 ++ t2)
            end
      | (Raise err, w1, t1) =>
          match try_engines rest query num_results w1 with
          | (r, w2, t2) =>
              (r, w2,
               EvInfoAttempt engine_name :: t1
               ++ EvPrintFailed engine_name err :: t2)
          end
      end
  end.
Proof.
  simpl. destruct (_search_engine !! engine_name) as [e|]; [|reflexivity].
  unfold bind, try_except, emit, ret.
  destruct (_perform_search_with_engine e query num_results w)
    as [[[links | err] w1] t1]; simpl.
  - destruct (Py.list_bool links); simpl.
    + now rewrite !app_nil_r.
    + rewrite !app_nil_r.
      now destruct (try_engines rest query num_results w1) as [[r w2] t2].
  - destruct (try_engines rest query num_results w1) as [[r w2] t2].
    simpl. now rewrite <- !app_assoc.
Qed.

Lemma attempted_app t1 t2 : attempted (t1 ++ t2) = attempted t1 ++ attempted t2.
Proof. apply omap_app. Qed.

Lemma searched_app t1 t2 : searched (t1 ++ t2) = searched t1 ++ searched t2.
Proof. apply omap_app. Qed.

Lemma outer_app t1 t2 : outer (t1 ++ t2) = outer t1 ++ outer t2.
Proof. apply List.filter_app. Qed.

(** *** Normalisation keeps every link *)

Lemma enumerate_from_lookup {A} (l : list A) : ∀ start i,
  Py.enumerate_from start l !! i = (λ x, ((start + i)%nat, x)) <$> l !! i.
Proof.
  induction l as [|x l IH]; intros start [|i]; simpl; try reflexivity.
  - now rewrite Nat.add_0_r.
  - rewrite IH. now rewrite Nat.add_succ_r.
Qed.

Lemma enumerate_from_length {A} (l : list A) : ∀ start,
  length (Py.enumerate_from start l) = length l.
Proof. induction l as [|x l IH]; intros start; simpl; [|rewrite IH]; reflexivity. Qed.

Lemma structured_results_lookup links i :
  structured_results links !! i = structured_result i <$> links !! i.
Proof.
  unfold structured_results, Py.enumerate.
  rewrite list_lookup_fmap, enumerate_from_lookup.
  now destruct (links !! i).
Qed.

Lemma structured_results_length links :
  length (structured_results links) = length links.
Proof.
  unfold structured_results, Py.enumerate.
  now rewrite length_fmap, enumerate_from_length.
Qed.

Lemma structured_results_nil links :
  structured_results links = [] → links = [].
Proof.
  intros H. apply (f_equal length) in H.
  rewrite structured_results_length in H. now destruct links.
Qed.

Lemma list_bool_true {A} (l : list A) : Py.list_bool l = true ↔ l ≠ [].
Proof. destruct l; simpl; split; congruence. Qed.

Lemma found_result_not_empty query engine_name links :
  Py.list_bool links = true →
  results (structured_data (found_result query engine_name links)) ≠ [].
Proof.
  intros H Hnil. simpl in Hnil. apply structured_results_nil in Hnil.
  subst links. discriminate.
Qed.

(** *** Runs of the loop over the engines *)

(** Over known engines the loop returns: either the empty outcome after
    attempting every engine, or the outcome built from the links of the
    engine searched last. *)
Lemma try_engines_outcome query num_results engine_order :
  (∀ name, name ∈ engine_order → known name) →
  ∀ w, ∃ r w' t,
    try_engines engine_order query num_results w = (Return r, w', t)
    ∧ outer t = []
    ∧ ((r = empty_result query ∧ attempted t = engine_order)
       ∨ (∃ name e links t0,
            r = found_result query name links
            ∧ Py.list_bool links = true
            ∧ name ∈ engine_order
            ∧ _search_engine !! name = Some e
            ∧ t = t0 ++ [EvSearch e query num_results (Return links)])).
Proof.
  induction engine_order as [|name rest IH]; intros Hk w.
  - exists (empty_result query), w, []. simpl. unfold ret. auto.
  - rewrite try_engines_cons.
    destruct (Hk name) as [e He]; [left|]. rewrite He.
    destruct (_perform_search_with_engine e query num_results w)
      as [[[links | err] w1] t1] eqn:Hrun;
      destruct (perform_search_with_engine_trace _ _ _ _ _ _ _ Hrun)
        as (Hatt & Hout & _ & Hlast).
    + destruct (Py.list_bool links) eqn:Hb.
      * destruct (Hlast links eq_refl) as [t0 ->].
        eexists _, _, _. split; [reflexivity|]. split.
        { change (outer (t0 ++ [EvSearch e query num_results (Return links)]) = []).
          exact Hout. }
        right. exists name, e, links, (EvInfoAttempt name :: t0).
        repeat split; auto. left.
      * destruct (IH (λ n H, Hk n (list_elem_of_further _ _ _ H)) w1)
          as (r & w2 & t2 & -> & Hout2 & Hcase).
        eexists _, _, _. split; [reflexivity|]. split.
        { change (outer (t1 ++ t2) = []). now rewrite outer_app, Hout, Hout2. }
        destruct Hcase as [[-> Hatt2] | (n' & e' & l' & t0 & -> & Hb' & Hin & He' & ->)].
        -- left. split; [reflexivity|].
           change (name :: attempted (t1 ++ t2) = name :: rest).
           now rewrite attempted_app, Hatt, Hatt2.
        -- right. exists n', e', l', (EvInfoAttempt name :: t1 ++ t0).
           repeat split; auto; [now right|].
           simpl. now rewrite app_assoc.
    + destruct (IH (λ n H, Hk n (list_elem_of_further _ _ _ H)) w1)
        as (r & w2 & t2 & -> & Hout2 & Hcase).
      eexists _, _, _. split; [reflexivity|]. split.
      { change (outer (t1 ++ EvPrintFailed name err :: t2) = []).
        now rewrite outer_app, Hout. }
      destruct Hcase as [[-> Hatt2] | (n' & e' & l' & t0 & -> & Hb' & Hin & He' & ->)].
      * left. split; [reflexivity|].
        change (name :: attempted (t1 ++ EvPrintFailed name err :: t2) = name :: rest).
        rewrite attempted_app, Hatt. simpl. now f_equal.
      * right.
        exists n', e', l', (EvInfoAttempt name :: t1 ++ EvPrintFailed name err :: t0).
        repeat split; auto; [now right|].
        simpl. rewrite <- app_assoc. reflexivity.
Qed.

(** When no engine of a prefix of the order gives a link, the loop goes
    on with the rest of the order, having attempted the whole prefix. *)
Lemma try_engines_app query num_results post : ∀ pre w r0 w1 t1,
  try_engines pre query num_results w = (Return r0, w1, t1) →
  results (structured_data r0) = [] →
  try_engines (pre ++ post) query num_results w
  = (match try_engines post query num_results w1 with
     | (r, w2, t2) => (r, w2, t1 ++ t2)
     end)
  ∧ attempted t1 = pre.
Proof.
  induction pre as [|name pre IH]; intros w r0 w1 t1 Hrun Hempty.
  - simpl in Hrun. unfold ret in Hrun. injection Hrun as <- <- <-.
    simpl. split; [|reflexivity].
    now destruct (try_engines post query num_results w) as [[r w2] t2].
  - simpl app. rewrite try_engines_cons in Hrun |- *.
    destruct (_search_engine !! name) as [e|]; [|discriminate].
    destruct (_perform_search_with_engine e query num_results w)
      as [[[links | err] w1'] t1'] eqn:Hcall;
      destruct (perform_search_with_engine_trace _ _ _ _ _ _ _ Hcall)
        as (Hatt & _).
    + destruct (Py.list_bool links) eqn:Hb.
      * injection Hrun as <- <- <-.
        now apply found_result_not_empty in Hempty.
      * destruct (try_engines pre query num_results w1') as [[r' w2'] t2'] eqn:Hrest.
        injection Hrun as -> -> <-.
        destruct (IH _ _ _ _ Hrest Hempty) as [-> Hatt'].
        split.
        -- destruct (try_engines post query num_results w1) as [[r w2] t2].
           simpl. now rewrite app_assoc.
        -- change (name :: attempted (t1' ++ t2') = name :: pre).
           now rewrite attempted_app, Hatt, Hatt'.
    + destruct (try_engines pre query num_results w1') as [[r' w2'] t2'] eqn:Hrest.
      injection Hrun as -> -> <-.
      destruct (IH _ _ _ _ Hrest Hempty) as [-> Hatt'].
      split.
      * destruct (try_engines post query num_results w1) as [[r w2] t2].
        simpl. now rewrite <- !app_assoc.
      * change (name :: attempted (t1' ++ EvPrintFailed name err :: t2') = name :: pre).
        rewrite attempted_app, Hatt. simpl. now f_equal.
Qed.

(** Only engines of the order are searched. *)
Lemma try_engines_searched query num_results : ∀ engine_order w r w' t,
  try_engines engine_order query num_results w = (r, w', t) →
  ∀ e, e ∈ searched t →
    ∃ name, name ∈ engine_order ∧ _search_engine !! name = Some e.
Proof.
  induction engine_order as [|name rest IH]; intros w r w' t Hrun e' Hin.
  - simpl in Hrun. unfold ret in Hrun. injection Hrun as <- <- <-.
    simpl in Hin. now apply elem_of_nil in Hin.
  - rewrite try_engines_cons in Hrun.
    destruct (_search_engine !! name) as [e|] eqn:He.
    2:{ injection Hrun as <- <- <-. simpl in Hin. now apply elem_of_nil in Hin. }
    assert (Hhere : ∀ t1 w1 r1,
               _perform_search_with_engine e query num_results w = (r1, w1, t1) →
               e' ∈ searched t1 →
               ∃ n, n ∈ name :: rest ∧ _search_engine !! n = Some e').
    { intros t1 w1 r1 Hcall Hin1.
      destruct (perform_search_with_engine_trace _ _ _ _ _ _ _ Hcall)
        as (_ & _ & Hs & _).
      rewrite (Hs _ Hin1). exists name. split; [left | exact He]. }
    assert (Hthere : ∀ w1 r2 w2 t2,
               try_engines rest query num_results w1 = (r2, w2, t2) →
               e' ∈ searched t2 →
               ∃ n, n ∈ name :: rest ∧ _search_engine !! n = Some e').
    { intros w1 r2 w2 t2 Hrest Hin2.
      destruct (IH _ _ _ _ Hrest _ Hin2) as (n & Hn & Hl).
      exists n. split; [now right | exact Hl]. }
    destruct (_perform_search_with_engine e query num_results w)
      as [[[links | err] w1] t1] eqn:Hcall.
    + destruct (Py.list_bool links).
      * injection Hrun as <- <- <-. simpl in Hin. eauto.
      * destruct (try_engines rest query num_results w1) as [[r2 w2] t2] eqn:Hrest.
        injection Hrun as <- <- <-.
        change (e' ∈ searched (t1 ++ t2)) in Hin.
        rewrite searched_app, elem_of_app in Hin.
        destruct Hin; eauto.
    + destruct (try_engines rest query num_results w1) as [[r2 w2] t2] eqn:Hrest.
      injection Hrun as <- <- <-.
      change (e' ∈ searched (t1 ++ EvPrintFailed name err :: t2)) in Hin.
      rewrite searched_app, elem_of_app in Hin.
      destruct Hin; eauto.
Qed.

(** The trial, over the resolved order: it returns, starts with its own
    event and has no further event of [execute] in its trace. *)
Lemma try_all_engines_outcome config query num_results w :
  ∃ r w' t,
    _try_all_engines config query num_results w = (Return r, w', EvTrial :: t)
    ∧ outer t = []
    ∧ ((r = empty_result query ∧ attempted t = _get_engine_order config)
       ∨ (∃ name e links t0,
            r = found_result query name links
            ∧ Py.list_bool links = true
            ∧ name ∈ _get_engine_order config
            ∧ _search_engine !! name = Some e
            ∧ t = t0 ++ [EvSearch e query num_results (Return links)])).
Proof.
  destruct (try_engines_outcome query num_results (_get_engine_order config)
              (get_engine_order_known config) w)
    as (r & w' & t & Hrun & Hout & Hcase).
  exists r, w', t. split; [|auto].
  unfold _try_all_engines, bind, emit. now rewrite Hrun.
Qed.

(** ** The outer retry loop *)

(** One iteration of the loop of [execute]. *)
Lemma execute_loop_cons retry_count rest retry_delay max_retries config
  query num_results w :
  execute_loop (retry_count :: rest) retry_delay max_retries config
    query num_results w =
  match _try_all_engines config query num_results w with
  | (Return links, w1, t1) =>
      if ToolResult_bool links then (Return (ToolResultValue links), w1, t1)
      else
        match execute_loop rest retry_delay max_retries config
                query num_results w1 with
        | (r, w2, t2) =>
            (r, w2,
             t1 ++ (if (retry_count <? max_retries)%Z
                    then [EvWarning retry_delay (retry_count + 1) max_retries;
                          EvSleep retry_delay]
                    else [EvError max_retries]) ++ t2)
        end
  | (Raise e, w1, t1) => (Raise e, w1, t1)
  end.
Proof.
  simpl. unfold bind at 1.
  destruct (_try_all_engines config query num_results w)
    as [[[links | e] w1] t1]; [|reflexivity].
  destruct (ToolResult_bool links).
  - unfold ret. now rewrite app_nil_r.
  - unfold bind, emit.
    destruct (retry_count <? max_retries)%Z;
      now destruct (execute_loop rest retry_delay max_retries config
                      query num_results w1) as [[r w2] t2].
Qed.

Lemma outer_cons_trial t : outer (EvTrial :: t) = EvTrial :: outer t.
Proof. reflexivity. Qed.

Lemma trials_outer t : trials (outer t) = trials t.
Proof.
  unfold trials, outer.
  induction t as [|ev t IH]; [reflexivity|].
  destruct ev; simpl; congruence.
Qed.


Lemma execute_loop_all_empty retry_delay max_retries config query num_results :
  (∀ w, ∃ r w' t,
     _try_all_engines config query num_results w = (Return r, w', t)
     ∧ ToolResult_bool r = false) →
  ∀ len first w,
    Z.of_nat (first + len) = (max_retries + 1)%Z →
    ∃ w' t,
      execute_loop (Z.of_nat <$> seq first len) retry_delay max_retries
        config query num_results w = (Return EmptyListValue, w', t)
      ∧ outer t = empty_rounds retry_delay len.
Proof.
  intros Hall. induction len as [|len IH]; intros first w Hlen.
  - exists w, []. split; reflexivity.
  - simpl seq. rewrite fmap_cons, execute_loop_cons.
    destruct (Hall w) as (r & w1 & t1 & Hrun & Hempty).
    destruct (try_all_engines_outcome config query num_results w)
      as (r' & w1' & t1' & Hrun' & Hout & _).
    rewrite Hrun in Hrun'. injection Hrun' as <- <- ->.
    rewrite Hrun, Hempty.
    destruct (IH (S first) w1) as (w2 & t2 & Hloop & Hout2); [lia|].
    rewrite Hloop. eexists _, _. split; [reflexivity|].
    rewrite !outer_app, outer_cons_trial, Hout, Hout2.
    destruct len as [|len].
    + replace (Z.of_nat first <? max_retries)%Z with false
        by (symmetry; apply Z.ltb_ge; lia).
      reflexivity.
    + replace (Z.of_nat first <? max_retries)%Z with true
        by (symmetry; apply Z.ltb_lt; lia).
      reflexivity.
Qed.

(** Every run of [execute] returns a value: no exception of an engine
    reaches the caller. *)
Lemma execute_loop_returns retry_delay max_retries config query num_results :
  ∀ retry_counts w, ∃ v w' t,
    execute_loop retry_counts retry_delay max_retries config
      query num_results w = (Return v, w', t).
Proof.
  induction retry_counts as [|retry_count rest IH]; intros w.
  - exists EmptyListValue, w, []. reflexivity.
  - rewrite execute_loop_cons.
    destruct (try_all_engines_outcome config query num_results w)
      as (r & w1 & t1 & -> & _).
    destruct (ToolResult_bool r); [eauto|].
    destruct (IH w1) as (v & w2 & t2 & ->). eauto.
Qed.

(** When the outcome of every trial is falsy, [execute] ends on its last
    line and hands back the bare empty list. *)
Lemma execute_all_empty_returns_list config query num_results :
  (∀ w, ∃ r w' t,
     _try_all_engines config query num_results w = (Return r, w', t)
     ∧ ToolResult_bool r = false) →
  ∀ w, ∃ w' t,
    execute config query num_results w = (Return EmptyListValue, w', t).
Proof.
  intros Hall w. unfold execute, Py.range.
  set (m := configured_max_retries config).
  destruct (Z_le_gt_dec 0 (m + 1)) as [Hm | Hm].
  - destruct (execute_loop_all_empty (configured_retry_delay config) m
                config query num_results Hall (Z.to_nat (m + 1)) 0%nat w)
      as (w' & t & Hrun & _); [lia|].
    eauto.
  - replace (Z.to_nat (m + 1)) with 0%nat by lia.
    exists w, []. reflexivity.
Qed.

(** ** The claims *)

(** C6. For every configured fallback list, with or without duplicates and
    unknown identifiers, the resolved order has no duplicates, holds only
    keys of the registry, holds only the preferred engine and the
    configured fallbacks (no other known engine is appended), and lists
    them in the order of their first occurrence in the configuration. *)
Theorem get_engine_order_resolves (config : AppConfig) :
  let engine_order := _get_engine_order config in
  let configured := preferred_engine config :: fallback_list config in
  NoDup engine_order
  ∧ (∀ name, name ∈ engine_order → known name ∧ name ∈ registry_keys)
  ∧ (∀ name, name ∈ engine_order → name ∈ configured)
  ∧ (∀ name, known name → name ∈ configured → name ∈ engine_order)
  ∧ engine_order = first_occurrences (filter known configured).
Proof.
  cbv zeta. split; [apply get_engine_order_NoDup|].
  split.
  { intros name H. apply get_engine_order_known in H.
    split; [exact H | now apply known_registry_keys]. }
  rewrite get_engine_order_first_occurrences.
  repeat split.
  - intros name. rewrite first_occurrences_elem_of, list_elem_of_filter. tauto.
  - intros name Hk Hin.
    rewrite first_occurrences_elem_of, list_elem_of_filter. tauto.
Qed.

(** C7. When the preferred engine, lowercased, is a key of the registry and
    the configuration names no fallback (the list is absent or empty), the
    resolved order is the one-element list of the preferred engine. *)
Theorem get_engine_order_preferred_only (config : AppConfig) :
  known (preferred_engine config) →
  no_fallbacks config →
  _get_engine_order config = [preferred_engine config].
Proof.
  intros Hk Hnone.
  assert (Hfb : fallback_list config = []).
  { unfold fallback_list, no_fallbacks in *.
    destruct (Config.search_config config) as [sc|]; [|reflexivity].
    destruct Hnone as [-> | ->]; reflexivity. }
  unfold _get_engine_order. rewrite Hfb, (bool_decide_eq_true_2 _ Hk).
  reflexivity.
Qed.

(** C10. Every identifier of the resolved order is one of the four keys of
    the registry, so each lookup [self._search_engine[engine_name]] of the
    trial finds an engine and the trial returns: it never ends in a
    missing-key error. *)
Theorem registry_lookup_never_fails (config : AppConfig) :
  (∀ name, name ∈ _get_engine_order config →
     name ∈ ["google"; "baidu"; "duckduckgo"; "bing"]
     ∧ is_Some (_search_engine !! name))
  ∧ (∀ query num_results w, ∃ r w' t,
       _try_all_engines config query num_results w = (Return r, w', t)).
Proof.
  split.
  - intros name H. apply get_engine_order_known in H.
    split; [now apply known_registry_keys | exact H].
  - intros query num_results w.
    destruct (try_all_engines_outcome config query num_results w)
      as (r & w' & t & Hrun & _).
    eauto.
Qed.

(** C3. A link whose URL parse fails still yields an entry, at the position
    of the link: its domain is "unknown", its snippet "No description
    available" and its favicon the empty string; no link is dropped. *)
Theorem parse_failure_keeps_entry query engine_name links i link err :
  links !! i = Some link →
  Url.urlparse check_bracketed_host checknetloc_nfkc link = Raise err →
  let entries := results (structured_data (found_result query engine_name links)) in
  entries !! i
  = Some {| title := "Result " +:+ Py.str_of_nat (i + 1);
            url := link;
            domain := "unknown";
            snippet := "No description available";
            favicon := "" |}
  ∧ length entries = length links.
Proof.
  intros Hlink Hparse. cbv zeta. simpl results.
  rewrite structured_results_lookup, Hlink, structured_results_length.
  simpl. unfold structured_result. rewrite Hparse. auto.
Qed.

(** C8. The link "https://example.com/page" at position 0 becomes the entry
    titled "Result 1" with domain "example.com", snippet "Found at
    example.com" and the favicon address of that domain; in general a link
    that parses, at position [i], becomes the entry titled "Result (i+1)"
    whose domain is the netloc of the URL, whose snippet is "Found at "
    followed by the domain and whose favicon is the favicon address of the
    domain. *)
Theorem normalisation_of_parsed_url :
  structured_results ["https://example.com/page"] !! 0%nat
  = Some {| title := "Result 1";
            url := "https://example.com/page";
            domain := "example.com";
            snippet := "Found at example.com";
            favicon := "https://www.google.com/s2/favicons?domain=example.com" |}
  ∧ ∀ links i link parsed_url,
      links !! i = Some link →
      Url.urlparse check_bracketed_host checknetloc_nfkc link
      = Return parsed_url →
      structured_results links !! i
      = Some {| title := "Result " +:+ Py.str_of_nat (i + 1);
                url := link;
                domain := Url.netloc parsed_url;
                snippet := "Found at " +:+ Url.netloc parsed_url;
                favicon := "https://www.google.com/s2/favicons?domain="
                           +:+ Url.netloc parsed_url |}.
Proof.
  split; [vm_compute; reflexivity|].
  intros links i link parsed_url Hlink Hparse.
  rewrite structured_results_lookup, Hlink. simpl.
  unfold structured_result. now rewrite Hparse.
Qed.

(** C9. The outcome of a trial keeps the invariant of [SearchOutcome]: when
    its results are non-empty, its engine field names an engine of the
    resolved order, that engine's search is the last event of the trial and
    the results are the normalisation of the links it returned; when its
    results are empty, the engine field is absent. *)
Theorem trial_outcome_invariant config query num_results w :
  ∃ r w' t,
    _try_all_engines config query num_results w = (Return r, w', t)
    ∧ (results (structured_data r) ≠ [] →
       ∃ name e links t0,
         engine (structured_data r) = Some name
         ∧ name ∈ _get_engine_order config
         ∧ _search_engine !! name = Some e
         ∧ t = t0 ++ [EvSearch e query num_results (Return links)]
         ∧ links ≠ []
         ∧ results (structured_data r) = structured_results links)
    ∧ (results (structured_data r) = [] → engine (structured_data r) = None).
Proof.
  destruct (try_all_engines_outcome config query num_results w)
    as (r & w' & t & Hrun & _ & Hcase).
  exists r, w', (EvTrial :: t). split; [exact Hrun|].
  destruct Hcase as [[-> _] | (name & e & links & t0 & -> & Hb & Hin & He & ->)].
  - split; [intros H; now destruct H | reflexivity].
  - split.
    + intros _. exists name, e, links, (EvTrial :: t0).
      repeat split; auto. now apply list_bool_true.
    + intros H. now apply found_result_not_empty in H.
Qed.

(** C4. First success wins.  Let [name] stand at position [k] of the
    resolved order.  If the engines before it gave no link and the search
    with the engine of [name] returns a non-empty list, the trial returns
    the outcome of that engine at once: the engines attempted are those at
    positions [0..k], and no engine at a position after [k] is searched. *)
Theorem first_success_wins config query num_results w k name e
  r0 w1 t1 links w2 t2 :
  let engine_order := _get_engine_order config in
  engine_order !! k = Some name →
  _search_engine !! name = Some e →
  try_engines (take k engine_order) query num_results w = (Return r0, w1, t1) →
  results (structured_data r0) = [] →
  _perform_search_with_engine e query num_results w1 = (Return links, w2, t2) →
  links ≠ [] →
  let run := _try_all_engines config query num_results w in
  run = (Return (found_result query name links), w2,
         EvTrial :: t1 ++ EvInfoAttempt name :: t2)
  ∧ attempted run.2 = take (S k) engine_order
  ∧ ∀ j name' e',
      (k < j)%nat →
      engine_order !! j = Some name' →
      _search_engine !! name' = Some e' →
      e' ∉ searched run.2.
Proof.
  cbv zeta. intros Hk He Hpre Hempty Hcall Hlinks.
  set (engine_order := _get_engine_order config) in *.
  assert (Hrun : _try_all_engines config query num_results w
                 = (Return (found_result query name links), w2,
                    EvTrial :: t1 ++ EvInfoAttempt name :: t2)).
  { unfold _try_all_engines, bind, emit. fold engine_order.
    rewrite <- (take_drop_middle engine_order k name Hk).
    destruct (try_engines_app query num_results
                (name :: drop (S k) engine_order) _ _ _ _ _ Hpre Hempty)
      as [-> _].
    rewrite try_engines_cons, He, Hcall.
    apply list_bool_true in Hlinks. now rewrite Hlinks. }
  destruct (try_engines_app query num_results [] _ _ _ _ _ Hpre Hempty)
    as [_ Hatt].
  destruct (perform_search_with_engine_trace _ _ _ _ _ _ _ Hcall)
    as (Hatt2 & _ & Hs2 & _).
  rewrite Hrun. split; [reflexivity|]. split.
  - change (attempted (t1 ++ EvInfoAttempt name :: t2) = take (S k) engine_order).
    rewrite attempted_app, Hatt, (take_S_r _ _ _ Hk).
    change (attempted (EvInfoAttempt name :: t2)) with (name :: attempted t2).
    now rewrite Hatt2.
  - intros j name' e' Hj Hname' He' Hin.
    pose proof (get_engine_order_NoDup config) as Hnd. fold engine_order in Hnd.
    change (e' ∈ searched (t1 ++ EvInfoAttempt name :: t2)) in Hin.
    rewrite searched_app, elem_of_app in Hin.
    change (searched (EvInfoAttempt name :: t2)) with (searched t2) in Hin.
    destruct Hin as [Hin | Hin].
    + destruct (try_engines_searched _ _ _ _ _ _ _ Hpre _ Hin) as (n & Hn & Hl).
      apply elem_of_take in Hn. destruct Hn as (i & Hi & Hlt).
      rewrite (registry_injective _ _ _ Hl He') in Hi.
      pose proof (NoDup_lookup _ _ _ _ Hnd Hi Hname'). lia.
    + apply Hs2 in Hin. subst e'.
      rewrite (registry_injective _ _ _ He' He) in Hname'.
      pose proof (NoDup_lookup _ _ _ _ Hnd Hk Hname'). lia.
Qed.

(** C5. When every call of an engine fails, the decorated call makes three
    calls and then raises the retry error that carries the last failure,
    with no wait before the first call, a wait of 1 before the second and
    of 2 before the third; the wait before attempt [n], for [n >= 2], is
    [min(10, 1 * 2^(n-2))]. *)
Theorem retrier_three_attempts e query num_results w :
  (∀ w0, ∃ err w1, perform_search e query num_results w0 = (Raise err, w1)) →
  (∃ e1 e2 e3 w',
     _perform_search_with_engine e query num_results w
     = (Raise (RetryError e3), w',
        [EvSearch e query num_results (Raise e1); EvBackoff 1;
         EvSearch e query num_results (Raise e2); EvBackoff 2;
         EvSearch e query num_results (Raise e3)]))
  ∧ (∀ n, (2 <= n)%Z →
       wait_exponential 1 1 10 (n - 1) = Z.min 10 (1 * 2 ^ (n - 2))).
Proof.
  intros Hfail. split.
  - rewrite perform_search_with_engine_unfold.
    destruct (Hfail w) as (e1 & w1 & ->).
    destruct (Hfail w1) as (e2 & w2 & ->).
    destruct (Hfail w2) as (e3 & w3 & ->).
    now exists e1, e2, e3, w3.
  - intros n Hn. unfold wait_exponential.
    replace (n - 1 - 1)%Z with (n - 2)%Z by lia.
    assert (0 < 2 ^ (n - 2))%Z by (apply Z.pow_pos_nonneg; lia).
    lia.
Qed.

(** C2, the code at the failing input.  With [max_retries >= 0]: when the
    empty outcome is truthy, as an object is in Python unless its class
    says otherwise, a first trial that comes back empty ends [execute]: one
    trial, no sleep, and the empty outcome is returned, where the claim has
    [max_retries + 1] trials with a sleep between them. *)
Theorem empty_outcome_ends_execute config q num_results w r w1 t1 :
  (0 <= configured_max_retries config)%Z →
  _try_all_engines config q num_results w = (Return r, w1, t1) →
  results (structured_data r) = [] →
  ToolResult_bool (empty_result q) = true →
  execute config q num_results w
  = (Return (ToolResultValue (empty_result q)), w1, t1)
  ∧ trials t1 = 1%nat
  ∧ outer t1 = [EvTrial].
Proof.
  intros Hm Hrun Hempty Htrue.
  destruct (try_all_engines_outcome config q num_results w)
    as (r' & w1' & t1' & Hrun' & Hout & Hcase).
  rewrite Hrun in Hrun'. injection Hrun' as <- <- ->.
  assert (Hr : r = empty_result q).
  { destruct Hcase as [[-> _] | (name & e & links & t0 & -> & Hb & _)];
      [reflexivity | now apply found_result_not_empty in Hempty]. }
  subst r. split; [|split].
  - unfold execute, Py.range.
    replace (Z.to_nat (configured_max_retries config + 1))
      with (S (Z.to_nat (configured_max_retries config))) by lia.
    simpl seq. now rewrite fmap_cons, execute_loop_cons, Hrun, Htrue.
  - rewrite <- trials_outer, outer_cons_trial, Hout. reflexivity.
  - now rewrite outer_cons_trial, Hout.
Qed.


(** ** Further properties of the resolver *)

Lemma first_occurrences_length l : (length (first_occurrences l) ≤ length l)%nat.
Proof.
  induction l as [|x l IH]; simpl; [lia|].
  pose proof (length_filter (λ y, y ≠ x) (first_occurrences l)). lia.
Qed.

Lemma get_engine_order_length config :
  (length (_get_engine_order config) ≤ 4)%nat.
Proof.
  change 4%nat with (length registry_keys).
  apply submseteq_length, NoDup_submseteq; [apply get_engine_order_NoDup|].
  intros name H. now apply known_registry_keys, (get_engine_order_known config).
Qed.

(** X1. The resolved order is empty exactly when neither the preferred
    engine nor any configured fallback is a key of the registry; a trial
    then returns the empty outcome at once, without logging an attempt,
    calling an engine or changing the world. *)
Theorem empty_order_touches_no_engine (config : AppConfig) :
  (_get_engine_order config = []
   ↔ ¬ known (preferred_engine config)
     ∧ ∀ fallback, fallback ∈ fallback_list config → ¬ known fallback)
  ∧ (_get_engine_order config = [] →
     ∀ query num_results w,
       _try_all_engines config query num_results w
       = (Return (empty_result query), w, [EvTrial])).
Proof.
  split.
  - rewrite get_engine_order_first_occurrences. split.
    + intros Hnil. split.
      * intros Hk. rewrite (filter_cons_True _ _ _ Hk) in Hnil. discriminate.
      * intros f Hf Hk.
        assert (Hin : f ∈ first_occurrences
                        (filter known (preferred_engine config :: fallback_list config))).
        { rewrite first_occurrences_elem_of, list_elem_of_filter.
          split; [exact Hk | now right]. }
        rewrite Hnil in Hin. now apply elem_of_nil in Hin.
    + intros [Hp Hf].
      destruct (first_occurrences
                  (filter known (preferred_engine config :: fallback_list config)))
        as [|x l] eqn:E; [reflexivity|exfalso].
      assert (Hx : x ∈ first_occurrences
                     (filter known (preferred_engine config :: fallback_list config)))
        by (rewrite E; left).
      rewrite first_occurrences_elem_of, list_elem_of_filter, elem_of_cons in Hx.
      destruct Hx as [Hk [-> | Hin]]; [exact (Hp Hk) | exact (Hf x Hin Hk)].
  - intros Hnil query num_results w.
    unfold _try_all_engines, bind, emit. rewrite Hnil. reflexivity.
Qed.

(** X2. The preferred engine, when it is a key of the registry, is the
    first engine of the order and occurs nowhere else in it; when it is
    not, the order starts with the first configured fallback that is a
    key. *)
Theorem preferred_engine_goes_first (config : AppConfig) :
  (known (preferred_engine config) →
   ∃ rest, _get_engine_order config = preferred_engine config :: rest
           ∧ preferred_engine config ∉ rest)
  ∧ (¬ known (preferred_engine config) →
     head (_get_engine_order config)
     = head (filter known (fallback_list config))).
Proof.
  rewrite get_engine_order_first_occurrences. split; intros Hk.
  - rewrite (filter_cons_True _ _ _ Hk). simpl. eexists. split; [reflexivity|].
    rewrite list_elem_of_filter. intros [Hne _]. now apply Hne.
  - rewrite (filter_cons_False _ _ _ Hk).
    now destruct (filter known (fallback_list config)).
Qed.

(** X3. The order never holds more than the four engines of the registry,
    nor more than one engine beyond the configured fallbacks. *)
Theorem engine_order_is_short (config : AppConfig) :
  (length (_get_engine_order config) ≤ 4)%nat
  ∧ (length (_get_engine_order config) ≤ 1 + length (fallback_list config))%nat.
Proof.
  split; [apply get_engine_order_length|].
  rewrite get_engine_order_first_occurrences.
  pose proof (first_occurrences_length
                (filter known (preferred_engine config :: fallback_list config))) as H1.
  pose proof (length_filter known (preferred_engine config :: fallback_list config)) as H2.
  simpl in H2. lia.
Qed.

(** ** Further properties of the retrier *)

Lemma backoffs_app t1 t2 : backoffs (t1 ++ t2) = backoffs t1 ++ backoffs t2.
Proof. apply omap_app. Qed.

Lemma reported_app t1 t2 : reported (t1 ++ t2) = reported t1 ++ reported t2.
Proof. apply omap_app. Qed.

(** A decorated call makes one to three calls of the engine and reports
    nothing by itself. *)
Lemma perform_search_with_engine_budget e query num_results w r w' t :
  _perform_search_with_engine e query num_results w = (r, w', t) →
  (1 ≤ length (searched t) ≤ 3)%nat ∧ reported t = []
  ∧ (length (backoffs t) < length (searched t))%nat.
Proof.
  rewrite perform_search_with_engine_unfold.
  destruct (perform_search e query num_results w) as [[l1 | e1] w1].
  { intros [= <- <- <-]. simpl. repeat split; lia. }
  destruct (perform_search e query num_results w1) as [[l2 | e2] w2].
  { intros [= <- <- <-]. simpl. repeat split; lia. }
  destruct (perform_search e query num_results w2) as [[l3 | e3] w3];
    intros [= <- <- <-]; simpl; repeat split; lia.
Qed.

(** X5. Whatever the engine does, a decorated call makes at least one and
    at most three calls of it; its waits are the first ones of 1, 2, one
    fewer than its calls; it raises only after three failed calls, and then
    the retry error; and the links it returns are those of its last
    call. *)
Theorem retrier_calls_and_waits e query num_results w :
  let run := _perform_search_with_engine e query num_results w in
  (1 ≤ length (searched run.2) ≤ 3)%nat
  ∧ backoffs run.2 = take (length (searched run.2) - 1) [1; 2]%Z
  ∧ (∀ err, run.1.1 = Raise err →
       length (searched run.2) = 3%nat ∧ ∃ last_error, err = RetryError last_error)
  ∧ (∀ links, run.1.1 = Return links →
       ∃ t0, run.2 = t0 ++ [EvSearch e query num_results (Return links)]).
Proof.
  cbv zeta. rewrite perform_search_with_engine_unfold.
  destruct (perform_search e query num_results w) as [[l1 | e1] w1].
  { simpl. repeat split; try lia; try discriminate.
    intros links [= <-]. now exists []. }
  destruct (perform_search e query num_results w1) as [[l2 | e2] w2].
  { simpl. repeat split; try lia; try discriminate.
    intros links [= <-]. now eexists [_; _]. }
  destruct (perform_search e query num_results w2) as [[l3 | e3] w3].
  { simpl. repeat split; try lia; try discriminate.
    intros links [= <-]. now eexists [_; _; _; _]. }
  simpl. split; [lia|]. split; [reflexivity|]. split.
  - intros err [= <-]. split; [reflexivity | eauto].
  - intros links [=].
Qed.

(** X4. An engine that answers with no link is called once: the empty
    answer is neither retried nor reported as a failure, and the loop goes
    on with the next engine. *)
Theorem empty_answer_not_retried engine_name rest e query num_results w w1 :
  _search_engine !! engine_name = Some e →
  perform_search e query num_results w = (Return [], w1) →
  try_engines (engine_name :: rest) query num_results w
  = (match try_engines rest query num_results w1 with
     | (r, w2, t2) =>
         (r, w2,
          EvInfoAttempt engine_name
          :: EvSearch e query num_results (Return []) :: t2)
     end).
Proof.
  intros He Hcall.
  rewrite try_engines_cons, He, perform_search_with_engine_unfold, Hcall.
  reflexivity.
Qed.

(** X6. An engine whose every call fails costs a trial three calls and
    the waits of 1 and 2; it is reported once, with the retry error, and
    the loop goes on: the outcome is the one the rest of the order gives. *)
Theorem dead_engine_is_skipped engine_name rest e query num_results w :
  _search_engine !! engine_name = Some e →
  (∀ w0, ∃ err w1, perform_search e query num_results w0 = (Raise err, w1)) →
  ∃ e1 e2 e3 w3,
    try_engines (engine_name :: rest) query num_results w
    = (match try_engines rest query num_results w3 with
       | (r, w', t) =>
           (r, w',
            [EvInfoAttempt engine_name;
             EvSearch e query num_results (Raise e1); EvBackoff 1;
             EvSearch e query num_results (Raise e2); EvBackoff 2;
             EvSearch e query num_results (Raise e3);
             EvPrintFailed engine_name (RetryError e3)] ++ t)
       end).
Proof.
  intros He Hfail.
  destruct (Hfail w) as (e1 & w1 & H1).
  destruct (Hfail w1) as (e2 & w2 & H2).
  destruct (Hfail w2) as (e3 & w3 & H3).
  exists e1, e2, e3, w3.
  rewrite try_engines_cons, He, perform_search_with_engine_unfold, H1, H2, H3.
  now destruct (try_engines rest query num_results w3) as [[r w'] t].
Qed.

(** ** Further properties of the trial *)

Lemma attempted_cons_attempt name t :
  attempted (EvInfoAttempt name :: t) = name :: attempted t.
Proof. reflexivity. Qed.

Lemma searched_cons_attempt name t :
  searched (EvInfoAttempt name :: t) = searched t.
Proof. reflexivity. Qed.

Lemma searched_cons_reported name err t :
  searched (EvPrintFailed name err :: t) = searched t.
Proof. reflexivity. Qed.

Lemma attempted_cons_reported name err t :
  attempted (EvPrintFailed name err :: t) = attempted t.
Proof. reflexivity. Qed.

(** The loop attempts a prefix of the order and calls an engine at most
    three times per attempt. *)
Lemma try_engines_budget query num_results : ∀ engine_order w r w' t,
  try_engines engine_order query num_results w = (r, w', t) →
  attempted t `prefix_of` engine_order
  ∧ (length (searched t) ≤ 3 * length (attempted t))%nat.
Proof.
  induction engine_order as [|name rest IH]; intros w r w' t Hrun.
  - simpl in Hrun. unfold ret in Hrun. injection Hrun as <- <- <-.
    split; [apply prefix_nil | simpl; lia].
  - rewrite try_engines_cons in Hrun.
    destruct (_search_engine !! name) as [e|].
    2:{ injection Hrun as <- <- <-. split; [apply prefix_nil | simpl; lia]. }
    destruct (_perform_search_with_engine e query num_results w)
      as [[[links | err] w1] t1] eqn:Hcall;
      destruct (perform_search_with_engine_trace _ _ _ _ _ _ _ Hcall)
        as (Hatt & _);
      destruct (perform_search_with_engine_budget _ _ _ _ _ _ _ Hcall)
        as (Hlen & _).
    + destruct (Py.list_bool links).
      * injection Hrun as <- <- <-.
        rewrite attempted_cons_attempt, searched_cons_attempt, Hatt.
        split; [apply prefix_cons, prefix_nil | simpl; lia].
      * destruct (try_engines rest query num_results w1) as [[r2 w2] t2] eqn:Hrest.
        injection Hrun as <- <- <-.
        destruct (IH _ _ _ _ Hrest) as [Hpre Hbound].
        rewrite attempted_cons_attempt, searched_cons_attempt,
          attempted_app, searched_app, Hatt, length_app.
        split; [now apply prefix_cons | simpl; lia].
    + destruct (try_engines rest query num_results w1) as [[r2 w2] t2] eqn:Hrest.
      injection Hrun as <- <- <-.
      destruct (IH _ _ _ _ Hrest) as [Hpre Hbound].
      rewrite attempted_cons_attempt, searched_cons_attempt,
        attempted_app, searched_app, Hatt, length_app,
        attempted_cons_reported, searched_cons_reported.
      split; [now apply prefix_cons | simpl; lia].
Qed.

Lemma try_all_engines_budget config query num_results w r w' t :
  _try_all_engines config query num_results w = (r, w', t) →
  attempted t `prefix_of` _get_engine_order config
  ∧ (length (searched t) ≤ 3 * length (attempted t))%nat
  ∧ (length (searched t) ≤ 12)%nat.
Proof.
  unfold _try_all_engines, bind, emit.
  destruct (try_engines (_get_engine_order config) query num_results w)
    as [[r0 w0] t0] eqn:Hrun.
  intros [= <- <- <-].
  destruct (try_engines_budget _ _ _ _ _ _ _ Hrun) as [Hpre Hbound].
  pose proof (prefix_length _ _ Hpre).
  pose proof (get_engine_order_length config).
  change (attempted (EvTrial :: t0)) with (attempted t0).
  change (searched (EvTrial :: t0)) with (searched t0).
  split; [exact Hpre | split; lia].
Qed.

(** X7. In every trial the engines attempted are a prefix of the resolved
    order, so none is attempted twice; an engine is called at most three
    times per attempt, and a trial makes at most twelve calls in all. *)
Theorem trial_call_budget config query num_results w :
  let run := _try_all_engines config query num_results w in
  attempted run.2 `prefix_of` _get_engine_order config
  ∧ NoDup (attempted run.2)
  ∧ (length (searched run.2) ≤ 3 * length (attempted run.2))%nat
  ∧ (length (searched run.2) ≤ 12)%nat.
Proof.
  cbv zeta.
  destruct (_try_all_engines config query num_results w) as [[r w'] t] eqn:Hrun.
  destruct (try_all_engines_budget _ _ _ _ _ _ _ Hrun) as (Hpre & H3 & H12).
  simpl. repeat split; auto.
  destruct Hpre as [k Hk].
  pose proof (get_engine_order_NoDup config) as Hnd.
  rewrite Hk in Hnd. now apply NoDup_app in Hnd.
Qed.

(** X8. A trial that comes back with no result has attempted every engine
    of the resolved order, once each and in order, and its outcome is the
    "No search results found" result for the query. *)
Theorem empty_trial_attempted_every_engine config query num_results w r w' t :
  _try_all_engines config query num_results w = (Return r, w', t) →
  results (structured_data r) = [] →
  r = empty_result query ∧ attempted t = _get_engine_order config.
Proof.
  intros Hrun Hempty.
  destruct (try_all_engines_outcome config query num_results w)
    as (r' & w'' & t' & Hrun' & _ & Hcase).
  rewrite Hrun in Hrun'. injection Hrun' as <- <- ->.
  destruct Hcase as [[-> Hatt] | (name & e & links & t0 & -> & Hb & _)].
  - split; [reflexivity | exact Hatt].
  - now apply found_result_not_empty in Hempty.
Qed.

(** X12. Normalisation neither drops, adds nor reorders links: the urls of
    the entries are the links themselves, whether they parse or not, and
    the titles number them from 1. *)
Theorem normalisation_keeps_links links :
  url <$> structured_results links = links
  ∧ title <$> structured_results links
    = (λ i, "Result " +:+ Py.str_of_nat (i + 1)) <$> seq 0 (length links)
  ∧ length (structured_results links) = length links.
Proof.
  split; [|split; [|apply structured_results_length]].
  - apply list_eq. intros i.
    rewrite list_lookup_fmap, structured_results_lookup.
    destruct (links !! i) as [link|]; [|reflexivity].
    simpl. unfold structured_result.
    now destruct (Url.urlparse check_bracketed_host checknetloc_nfkc link).
  - apply list_eq. intros i.
    rewrite !list_lookup_fmap, structured_results_lookup.
    destruct (links !! i) as [link|] eqn:Hl.
    + rewrite lookup_seq_lt by (eapply lookup_lt_Some; exact Hl).
      simpl. unfold structured_result.
      now destruct (Url.urlparse check_bracketed_host checknetloc_nfkc link).
    + rewrite lookup_seq_ge by (now apply lookup_ge_None).
      reflexivity.
Qed.

(** ** Further properties of the outer loop *)

(** A [ToolResult] handed back by the loop is the outcome of the trial
    that ends the run, and the test [if links:] accepted it. *)
Lemma execute_loop_found retry_delay max_retries config query num_results :
  ∀ retry_counts w r w' t,
    execute_loop retry_counts retry_delay max_retries config
      query num_results w = (Return (ToolResultValue r), w', t) →
    ToolResult_bool r = true
    ∧ ∃ w0 t0 before,
        _try_all_engines config query num_results w0 = (Return r, w', t0)
        ∧ t = before ++ t0.
Proof.
  induction retry_counts as [|retry_count rest IH]; intros w r w' t Hrun.
  - discriminate Hrun.
  - rewrite execute_loop_cons in Hrun.
    destruct (_try_all_engines config query num_results w)
      as [[[links | e] w1] t1] eqn:Htrial; [|discriminate].
    destruct (ToolResult_bool links) eqn:Hb.
    + injection Hrun as <- <- <-. split; [exact Hb|].
      now exists w, t1, [].
    + destruct (execute_loop rest retry_delay max_retries config
                  query num_results w1) as [[v w2] t2] eqn:Hrest.
      injection Hrun as -> <- <-.
      destruct (IH _ _ _ _ Hrest) as (Htrue & w0 & t0 & before & Hlast & ->).
      split; [exact Htrue|].
      eexists w0, t0, _. split; [exact Hlast|].
      now rewrite !app_assoc.
Qed.

(** X9. A [ToolResult] returned by [execute] is the outcome of the last
    trial it ran, handed back as it is: the run ends with the events of
    that trial, with no sleep and no log line after them, in the state
    that trial left; the outcome passed the test [if links:] and carries
    the query asked. *)
Theorem execute_returns_last_trial_outcome config q num_results w r w' t :
  execute config q num_results w = (Return (ToolResultValue r), w', t) →
  ∃ w0 t0 before,
    _try_all_engines config q num_results w0 = (Return r, w', t0)
    ∧ t = before ++ t0
    ∧ ToolResult_bool r = true
    ∧ query (structured_data r) = q.
Proof.
  intros Hrun. apply execute_loop_found in Hrun.
  destruct Hrun as (Htrue & w0 & t0 & before & Htrial & ->).
  exists w0, t0, before. repeat split; try assumption.
  destruct (try_all_engines_outcome config q num_results w0)
    as (r' & w1 & t1 & Htrial' & _ & Hcase).
  rewrite Htrial in Htrial'. injection Htrial' as <- _ _.
  now destruct Hcase as [[-> _] | (name & e & links & t2 & -> & _)].
Qed.

(** Seen from outside, a run of the loop is some number of trials with a
    sleep between two of them. *)
Lemma execute_loop_shape retry_delay max_retries config query num_results :
  ∀ len first w,
    Z.of_nat (first + len) = (max_retries + 1)%Z →
    ∃ v w' t k,
      execute_loop (Z.of_nat <$> seq first len) retry_delay max_retries
        config query num_results w = (Return v, w', t)
      ∧ (k ≤ len)%nat
      ∧ outer t = empty_rounds retry_delay k
      ∧ (v = EmptyListValue → k = len)
      ∧ (∀ r, v = ToolResultValue r → (1 ≤ k)%nat).
Proof.
  induction len as [|len IH]; intros first w Hlen.
  - exists EmptyListValue, w, [], 0%nat. repeat split; auto. discriminate.
  - simpl seq. rewrite fmap_cons, execute_loop_cons.
    destruct (try_all_engines_outcome config query num_results w)
      as (r & w1 & t1 & -> & Hout & _).
    destruct (ToolResult_bool r).
    { exists (ToolResultValue r), w1, (EvTrial :: t1), 1%nat.
      split; [reflexivity|]. split; [lia|]. split.
      - now rewrite outer_cons_trial, Hout.
      - split; [discriminate | auto]. }
    destruct (IH (S first) w1) as (v & w2 & t2 & k & -> & Hk & Hout2 & Hv & Hr);
      [lia|].
    exists v, w2.
    eexists _, (S k). split; [reflexivity|]. split; [lia|].
    rewrite !outer_app, outer_cons_trial, Hout, Hout2.
    destruct len as [|len].
    + replace (Z.of_nat first <? max_retries)%Z with false
        by (symmetry; apply Z.ltb_ge; lia).
      assert (k = 0%nat) as -> by lia.
      split; [reflexivity|]. split; [|intros; lia].
      intros _. reflexivity.
    + replace (Z.of_nat first <? max_retries)%Z with true
        by (symmetry; apply Z.ltb_lt; lia).
      assert (Hpos : (1 ≤ k)%nat).
      { destruct v as [r'|]; [now apply (Hr r') | rewrite Hv by reflexivity; lia]. }
      destruct k as [|k]; [lia|].
      split; [reflexivity|]. split; [|intros; lia].
      intros Hv'. now rewrite Hv.
Qed.

(** X10. Seen from outside, every run of [execute] is a number [k] of
    trials with a sleep of [retry_delay] between two consecutive ones:
    never more than [max_retries + 1] trials, no sleep before the first
    trial or after the last; the bare list comes back only after all
    [max_retries + 1] trials, a [ToolResult] only after at least one. *)
Theorem execute_outer_shape config query num_results w :
  let max_retries := configured_max_retries config in
  let retry_delay := configured_retry_delay config in
  ∃ v w' t k,
    execute config query num_results w = (Return v, w', t)
    ∧ (k ≤ Z.to_nat (max_retries + 1))%nat
    ∧ outer t = empty_rounds retry_delay k
    ∧ (v = EmptyListValue → k = Z.to_nat (max_retries + 1))
    ∧ (∀ r, v = ToolResultValue r → (1 ≤ k)%nat).
Proof.
  cbv zeta. unfold execute, Py.range.
  set (m := configured_max_retries config).
  destruct (Z_le_gt_dec 0 (m + 1)) as [Hm | Hm].
  - apply execute_loop_shape. lia.
  - replace (Z.to_nat (m + 1)) with 0%nat by lia.
    exists EmptyListValue, w, [], 0%nat. repeat split; auto. discriminate.
Qed.

(** X11. With a negative [max_retries] the loop of [execute] has no
    iteration: no trial is run, no engine is called, the world is left as
    it was and the bare empty list comes back. *)
Theorem negative_max_retries_no_search config query num_results w :
  (configured_max_retries config < 0)%Z →
  execute config query num_results w = (Return EmptyListValue, w, []).
Proof.
  intros Hneg. unfold execute, Py.range.
  replace (Z.to_nat (configured_max_retries config + 1)) with 0%nat by lia.
  reflexivity.
Qed.

Lemma execute_loop_budget retry_delay max_retries config query num_results :
  ∀ retry_counts w v w' t,
    execute_loop retry_counts retry_delay max_retries config
      query num_results w = (v, w', t) →
    (length (searched t) ≤ 12 * length retry_counts)%nat.
Proof.
  induction retry_counts as [|retry_count rest IH]; intros w v w' t Hrun.
  - injection Hrun as <- <- <-. simpl. lia.
  - rewrite execute_loop_cons in Hrun.
    destruct (_try_all_engines config query num_results w)
      as [[[links | e] w1] t1] eqn:Htrial;
      destruct (try_all_engines_budget _ _ _ _ _ _ _ Htrial) as (_ & _ & H12).
    + destruct (ToolResult_bool links).
      * injection Hrun as <- <- <-. simpl. lia.
      * destruct (execute_loop rest retry_delay max_retries config
                    query num_results w1) as [[v2 w2] t2] eqn:Hrest.
        injection Hrun as <- <- <-.
        pose proof (IH _ _ _ _ Hrest) as Hrec.
        rewrite !searched_app, !length_app.
        assert (Hmid : ∀ b : bool,
                  searched (if b
                            then [EvWarning retry_delay (retry_count + 1) max_retries;
                                  EvSleep retry_delay]
                            else [EvError max_retries]) = [])
          by (now intros []).
        rewrite Hmid. simpl. lia.
    + injection Hrun as <- <- <-. simpl. lia.
Qed.

(** X13. A run of [execute] calls the engines at most twelve times per
    trial allowed: at most [12 * (max_retries + 1)] calls in all. *)
Theorem execute_call_budget config query num_results w :
  let run := execute config query num_results w in
  (length (searched run.2)
   ≤ 12 * Z.to_nat (configured_max_retries config + 1))%nat.
Proof.
  cbv zeta. unfold execute.
  destruct (execute_loop (Py.range (configured_max_retries config + 1))
              (configured_retry_delay config) (configured_max_retries config)
              config query num_results w) as [[v w'] t] eqn:Hrun.
  apply execute_loop_budget in Hrun.
  unfold Py.range in Hrun. rewrite length_fmap, length_seq in Hrun.
  exact Hrun.
Qed.

(** ** What the orchestrator passes on and what it logs *)

Lemma asked_app t1 t2 : asked (t1 ++ t2) = asked t1 ++ asked t2.
Proof. apply omap_app. Qed.

Lemma warnings_app t1 t2 : warnings (t1 ++ t2) = warnings t1 ++ warnings t2.
Proof. apply omap_app. Qed.

Lemma errors_app t1 t2 : errors (t1 ++ t2) = errors t1 ++ errors t2.
Proof. apply omap_app. Qed.

Lemma trials_app t1 t2 : trials (t1 ++ t2) = (trials t1 + trials t2)%nat.
Proof. unfold trials. now rewrite List.filter_app, length_app. Qed.

(** The trace of a decorated call: only searches for the request given,
    and no line of the outer loop. *)
Lemma perform_search_with_engine_inner e query num_results w r w' t :
  _perform_search_with_engine e query num_results w = (r, w', t) →
  Forall (λ p, p = (query, num_results)) (asked t)
  ∧ warnings t = [] ∧ errors t = [] ∧ trials t = 0%nat.
Proof.
  rewrite perform_search_with_engine_unfold.
  destruct (perform_search e query num_results w) as [[l1 | e1] w1].
  { intros [= <- <- <-]. simpl. repeat split; repeat constructor. }
  destruct (perform_search e query num_results w1) as [[l2 | e2] w2].
  { intros [= <- <- <-]. simpl. repeat split; repeat constructor. }
  destruct (perform_search e query num_results w2) as [[l3 | e3] w3];
    intros [= <- <- <-]; simpl; repeat split; repeat constructor.
Qed.

Lemma try_engines_inner query num_results : ∀ engine_order w r w' t,
  try_engines engine_order query num_results w = (r, w', t) →
  Forall (λ p, p = (query, num_results)) (asked t)
  ∧ warnings t = [] ∧ errors t = [] ∧ trials t = 0%nat.
Proof.
  induction engine_order as [|name rest IH]; intros w r w' t Hrun.
  - simpl in Hrun. unfold ret in Hrun. injection Hrun as <- <- <-.
    repeat split; constructor.
  - rewrite try_engines_cons in Hrun.
    destruct (_search_engine !! name) as [e|].
    2:{ injection Hrun as <- <- <-. repeat split; constructor. }
    destruct (_perform_search_with_engine e query num_results w)
      as [[[links | err] w1] t1] eqn:Hcall;
      destruct (perform_search_with_engine_inner _ _ _ _ _ _ _ Hcall)
        as (Ha & Hw & He & Ht).
    + destruct (Py.list_bool links).
      * injection Hrun as <- <- <-. now repeat split.
      * destruct (try_engines rest query num_results w1) as [[r2 w2] t2] eqn:Hrest.
        injection Hrun as <- <- <-.
        destruct (IH _ _ _ _ Hrest) as (Ha2 & Hw2 & He2 & Ht2).
        change (Forall (λ p, p = (query, num_results)) (asked (t1 ++ t2))
                ∧ warnings (t1 ++ t2) = [] ∧ errors (t1 ++ t2) = []
                ∧ trials (t1 ++ t2) = 0%nat).
        rewrite asked_app, warnings_app, errors_app, trials_app,
          Hw, Hw2, He, He2, Ht, Ht2.
        repeat split. now apply Forall_app.
    + destruct (try_engines rest query num_results w1) as [[r2 w2] t2] eqn:Hrest.
      injection Hrun as <- <- <-.
      destruct (IH _ _ _ _ Hrest) as (Ha2 & Hw2 & He2 & Ht2).
      change (Forall (λ p, p = (query, num_results))
                (asked (t1 ++ EvPrintFailed name err :: t2))
              ∧ warnings (t1 ++ EvPrintFailed name err :: t2) = []
              ∧ errors (t1 ++ EvPrintFailed name err :: t2) = []
              ∧ trials (t1 ++ EvPrintFailed name err :: t2) = 0%nat).
      rewrite asked_app, warnings_app, errors_app, trials_app, Hw, He, Ht.
      change (asked (EvPrintFailed name err :: t2)) with (asked t2).
      change (warnings (EvPrintFailed name err :: t2)) with (warnings t2).
      change (errors (EvPrintFailed name err :: t2)) with (errors t2).
      change (trials (EvPrintFailed name err :: t2)) with (trials t2).
      rewrite Hw2, He2, Ht2. repeat split. now apply Forall_app.
Qed.

Lemma try_all_engines_inner config query num_results w r w' t :
  _try_all_engines config query num_results w = (r, w', t) →
  Forall (λ p, p = (query, num_results)) (asked t)
  ∧ warnings t = [] ∧ errors t = [] ∧ trials t = 1%nat.
Proof.
  unfold _try_all_engines, bind, emit.
  destruct (try_engines (_get_engine_order config) query num_results w)
    as [[r0 w0] t0] eqn:Hrun.
  intros [= <- <- <-].
  destruct (try_engines_inner _ _ _ _ _ _ _ Hrun) as (Ha & Hw & He & Ht).
  change (Forall (λ p, p = (query, num_results)) (asked t0)
          ∧ warnings t0 = [] ∧ errors t0 = [] ∧ S (trials t0) = 1%nat).
  rewrite Ht. now repeat split.
Qed.

Lemma execute_loop_asked retry_delay max_retries config query num_results :
  ∀ retry_counts w v w' t,
    execute_loop retry_counts retry_delay max_retries config
      query num_results w = (v, w', t) →
    Forall (λ p, p = (query, num_results)) (asked t).
Proof.
  induction retry_counts as [|retry_count rest IH]; intros w v w' t Hrun.
  - injection Hrun as <- <- <-. constructor.
  - rewrite execute_loop_cons in Hrun.
    destruct (_try_all_engines config query num_results w)
      as [[[links | e] w1] t1] eqn:Htrial;
      destruct (try_all_engines_inner _ _ _ _ _ _ _ Htrial) as (Ha & _).
    + destruct (ToolResult_bool links).
      * now injection Hrun as <- <- <-.
      * destruct (execute_loop rest retry_delay max_retries config
                    query num_results w1) as [[v2 w2] t2] eqn:Hrest.
        injection Hrun as <- <- <-.
        rewrite !asked_app. apply Forall_app. split; [exact Ha|].
        apply Forall_app. split; [|eapply IH, Hrest].
        destruct (retry_count <? max_retries)%Z; constructor.
    + now injection Hrun as <- <- <-.
Qed.

(** X14. Every call of an engine made during [execute] is given the query
    and the number of results that [execute] received, unchanged. *)
Theorem execute_passes_request_unchanged config query num_results w :
  let run := execute config query num_results w in
  Forall (λ p, p = (query, num_results)) (asked run.2).
Proof.
  cbv zeta. unfold execute.
  destruct (execute_loop (Py.range (configured_max_retries config + 1))
              (configured_retry_delay config) (configured_max_retries config)
              config query num_results w) as [[v w'] t] eqn:Hrun.
  apply execute_loop_asked in Hrun. exact Hrun.
Qed.

Lemma execute_loop_log retry_delay max_retries config query num_results :
  ∀ len first w,
    Z.of_nat (first + len) = (max_retries + 1)%Z →
    ∃ v w' t,
      execute_loop (Z.of_nat <$> seq first len) retry_delay max_retries
        config query num_results w = (Return v, w', t)
      ∧ warnings t = Z.of_nat <$> seq (S first) (trials t - 1)
      ∧ ((0 < len)%nat → (1 ≤ trials t)%nat)
      ∧ (v = EmptyListValue → (0 < len)%nat → errors t = [max_retries])
      ∧ (∀ r, v = ToolResultValue r → errors t = []).
Proof.
  induction len as [|len IH]; intros first w Hlen.
  - exists EmptyListValue, w, []. repeat split; try reflexivity; try lia.
  - simpl seq. rewrite fmap_cons, execute_loop_cons.
    destruct (_try_all_engines config query num_results w)
      as [[r0 w1] t1] eqn:Htrial.
    destruct (try_all_engines_inner _ _ _ _ _ _ _ Htrial) as (_ & Hw & He & Ht).
    destruct (try_all_engines_outcome config query num_results w)
      as (r & w1' & t1' & Htrial' & _).
    rewrite Htrial in Htrial'. injection Htrial' as -> _ _.
    destruct (ToolResult_bool r).
    { exists (ToolResultValue r), w1, t1. rewrite Hw, He, Ht.
      repeat split; try reflexivity; try lia. discriminate. }
    destruct len as [|len].
    + replace (Z.of_nat first <? max_retries)%Z with false
        by (symmetry; apply Z.ltb_ge; lia).
      simpl. unfold ret.
      eexists EmptyListValue, w1, _. split; [reflexivity|].
      rewrite !warnings_app, !errors_app, !trials_app, Hw, He, Ht.
      repeat split; try reflexivity; try (simpl; lia). discriminate.
    + replace (Z.of_nat first <? max_retries)%Z with true
        by (symmetry; apply Z.ltb_lt; lia).
      destruct (IH (S first) w1) as (v & w2 & t2 & -> & Hw2 & Hpos & Hv & Hr);
        [lia|].
      specialize (Hpos ltac:(lia)).
      eexists v, w2, _. split; [reflexivity|].
      rewrite !warnings_app, !errors_app, !trials_app, Hw, He, Ht, Hw2.
      change (warnings [EvWarning retry_delay (Z.of_nat first + 1) max_retries;
                        EvSleep retry_delay])
        with [(Z.of_nat first + 1)%Z].
      change (errors [EvWarning retry_delay (Z.of_nat first + 1) max_retries;
                      EvSleep retry_delay])
        with (@nil Z).
      change (trials [EvWarning retry_delay (Z.of_nat first + 1) max_retries;
                      EvSleep retry_delay])
        with 0%nat.
      destruct (trials t2) as [|k]; [lia|].
      replace (1 + (0 + S k) - 1)%nat with (S k) by lia.
      replace (S k - 1)%nat with k by lia.
      split.
      { simpl. f_equal. lia. }
      split; [intros _; lia|]. split.
      * intros Hv' _. simpl. apply Hv; [exact Hv' | lia].
      * intros r' Hr'. simpl. now apply (Hr r').
Qed.

(** X15. The log of [execute]: the "before retry" warnings are numbered 1,
    2, ... and there is one per trial but the last; the "Giving up" error
    is logged once, naming [max_retries], when the bare list comes back
    after at least one trial, and never when a [ToolResult] comes back. *)
Theorem execute_log_lines config query num_results w :
  let max_retries := configured_max_retries config in
  ∃ v w' t,
    execute config query num_results w = (Return v, w', t)
    ∧ warnings t = Z.of_nat <$> seq 1 (trials t - 1)
    ∧ (v = EmptyListValue → (0 <= max_retries)%Z → errors t = [max_retries])
    ∧ (∀ r, v = ToolResultValue r → errors t = []).
Proof.
  cbv zeta. unfold execute, Py.range.
  set (m := configured_max_retries config).
  destruct (Z_le_gt_dec 0 (m + 1)) as [Hm | Hm].
  - destruct (execute_loop_log (configured_retry_delay config) m config
                query num_results (Z.to_nat (m + 1)) 0%nat w)
      as (v & w' & t & Hrun & Hw & _ & Hv & Hr); [lia|].
    exists v, w', t. split; [exact Hrun|]. split; [exact Hw|].
    split; [|exact Hr].
    intros Hv' Hpos. apply Hv; [exact Hv' | lia].
  - replace (Z.to_nat (m + 1)) with 0%nat by lia.
    exists EmptyListValue, w, []. split; [reflexivity|]. split; [reflexivity|].
    split; [intros _ Hpos; lia | reflexivity].
Qed.

End Orchestration.


(** * The model at work *)

(** The end-to-end scenario of the specification: the preferred engine
    fails three times, Baidu gives nothing, DuckDuckGo gives two links. *)
Example trial_falls_back :
  let run := _try_all_engines nat demo_search lenient lenient cfg_demo
               "rust ownership" 5 0%nat in
  attempted run.2 = ["google"; "baidu"; "duckduckgo"]
  ∧ searched run.2
    = [GoogleSearchEngine; GoogleSearchEngine; GoogleSearchEngine;
       BaiduSearchEngine; DuckDuckGoSearchEngine]
  ∧ ∃ r, run.1.1 = Return r
         ∧ engine (structured_data r) = Some "duckduckgo"
         ∧ length (results (structured_data r)) = 2%nat.
Proof. vm_compute. repeat split. eexists. repeat split. Qed.

(** The loop over the engines does raise on a name that is not a key of
    the registry; the resolver never hands it one. *)
Example unknown_engine_raises :
  try_engines unit down_search lenient lenient ["yahoo"] "q" 10 tt
  = (Raise (KeyError "yahoo"), tt, []).
Proof. reflexivity. Qed.

(** Text that is no URL still parses: its netloc is empty, and the entry is
    built on the success path. *)
Example not_a_url_parses :
  Url.urlparse lenient lenient "not a url"
  = Return {| Url.scheme := ""; Url.netloc := "" |}
  ∧ structured_result lenient lenient 0 "not a url"
    = {| title := "Result 1"; url := "not a url"; domain := "";
         snippet := "Found at ";
         favicon := "https://www.google.com/s2/favicons?domain=" |}.
Proof. split; vm_compute; reflexivity. Qed.

(** C1. With [max_retries = -1] configured, [execute] raises nothing but
    hands back the bare empty list of its last line, not a [ToolResult]:
    no trial is run, whatever the truth value of a [ToolResult] is. *)
Theorem execute_without_trial_returns_bare_list (truth : ToolResult → bool) :
  let run := execute nat demo_search lenient lenient truth cfg_negative
               "rust ownership" 5 0%nat in
  run = (Return EmptyListValue, 0%nat, [])
  ∧ ∀ r, run.1.1 ≠ Return (ToolResultValue r).
Proof. cbv zeta. split; [reflexivity|]. intros r H. discriminate H. Qed.

(** C5, the claim as stated fails.  Every call of every engine of
    [down_search] raises the same error, the final error of any run; the
    decorated call does not raise that error but the retry error that
    carries it. *)
Lemma retrier_does_not_propagate_final_error :
  (∀ w0, down_search GoogleSearchEngine "q" 10 w0
         = (Raise (EngineError "connection refused"), w0))
  ∧ (_perform_search_with_engine unit down_search GoogleSearchEngine "q" 10 tt).1.1
    = Raise (RetryError (EngineError "connection refused"))
  ∧ (_perform_search_with_engine unit down_search GoogleSearchEngine "q" 10 tt).1.1
    ≠ Raise (EngineError "connection refused").
Proof. split; [reflexivity|]. split; [reflexivity|]. discriminate. Qed.

(** ** Instances of the conditional claims *)

Lemma get_engine_order_preferred_only_witness :
  _get_engine_order cfg_bing = ["bing"]
  ∧ _get_engine_order cfg_no_retry = ["google"].
Proof.
  split.
  - apply (get_engine_order_preferred_only cfg_bing).
    + vm_compute. eauto.
    + right. reflexivity.
  - apply (get_engine_order_preferred_only cfg_no_retry).
    + vm_compute. eauto.
    + left. reflexivity.
Defined.

Lemma parse_failure_keeps_entry_witness :
  let entries :=
    results (structured_data
      (found_result lenient lenient "q" "duckduckgo"
         ["https://example.com/page"; "http://[::1/broken"])) in
  entries !! 1%nat
  = Some {| title := "Result 2"; url := "http://[::1/broken";
            domain := "unknown"; snippet := "No description available";
            favicon := "" |}
  ∧ length entries = 2%nat.
Proof.
  exact (parse_failure_keeps_entry lenient lenient "q" "duckduckgo"
           ["https://example.com/page"; "http://[::1/broken"] 1
           "http://[::1/broken" (ValueError "Invalid IPv6 URL")
           eq_refl eq_refl).
Defined.

Lemma normalisation_of_parsed_url_witness :
  structured_results lenient lenient
    ["https://example.com/page"; "HTTP://www.Bing.com:80/search?q=rust"]
    !! 1%nat
  = Some {| title := "Result 2";
            url := "HTTP://www.Bing.com:80/search?q=rust";
            domain := "www.Bing.com:80";
            snippet := "Found at www.Bing.com:80";
            favicon := "https://www.google.com/s2/favicons?domain=www.Bing.com:80" |}.
Proof.
  exact (proj2 (normalisation_of_parsed_url lenient lenient)
           ["https://example.com/page"; "HTTP://www.Bing.com:80/search?q=rust"]
           1%nat "HTTP://www.Bing.com:80/search?q=rust"
           {| Url.scheme := "http"; Url.netloc := "www.Bing.com:80" |}
           eq_refl eq_refl).
Defined.

Lemma first_success_wins_witness :
  let run := _try_all_engines nat demo_search lenient lenient cfg_demo
               "rust ownership" 5 0%nat in
  attempted run.2 = ["google"; "baidu"; "duckduckgo"]
  ∧ BingSearchEngine ∉ searched run.2.
Proof.
  cbv zeta.
  destruct (first_success_wins nat demo_search lenient lenient cfg_demo
              "rust ownership" 5 0%nat 2%nat "duckduckgo"
              DuckDuckGoSearchEngine
              (empty_result "rust ownership") 4%nat
              [EvInfoAttempt "google";
               EvSearch GoogleSearchEngine "rust ownership" 5
                 (Raise (EngineError "timeout"));
               EvBackoff 1;
               EvSearch GoogleSearchEngine "rust ownership" 5
                 (Raise (EngineError "timeout"));
               EvBackoff 2;
               EvSearch GoogleSearchEngine "rust ownership" 5
                 (Raise (EngineError "timeout"));
               EvPrintFailed "google" (RetryError (EngineError "timeout"));
               EvInfoAttempt "baidu";
               EvSearch BaiduSearchEngine "rust ownership" 5 (Return [])]
              ["https://example.com/page"; "http://[::1/broken"] 5%nat
              [EvSearch DuckDuckGoSearchEngine "rust ownership" 5
                 (Return ["https://example.com/page"; "http://[::1/broken"])]
              eq_refl eq_refl eq_refl eq_refl eq_refl
              ltac:(discriminate))
    as (_ & Hattempted & Hlater).
  split; [exact Hattempted|].
  exact (Hlater 3%nat "bing" BingSearchEngine ltac:(lia) eq_refl eq_refl).
Defined.

Lemma retrier_three_attempts_witness :
  _perform_search_with_engine unit down_search GoogleSearchEngine "q" 10 tt
  = (Raise (RetryError (EngineError "connection refused")), tt,
     [EvSearch GoogleSearchEngine "q" 10 (Raise (EngineError "connection refused"));
      EvBackoff 1;
      EvSearch GoogleSearchEngine "q" 10 (Raise (EngineError "connection refused"));
      EvBackoff 2;
      EvSearch GoogleSearchEngine "q" 10 (Raise (EngineError "connection refused"))])
  ∧ wait_exponential 1 1 10 (5 - 1) = 8%Z.
Proof.
  destruct (retrier_three_attempts unit down_search GoogleSearchEngine "q" 10 tt
              (λ w0, ex_intro _ (EngineError "connection refused")
                       (ex_intro _ w0 eq_refl)))
    as [_ Hwait].
  split; [reflexivity | exact (Hwait 5%Z ltac:(lia))].
Defined.

Lemma empty_outcome_ends_execute_witness :
  let run := execute unit down_search lenient lenient object_bool cfg_default
               "rust ownership" 5 tt in
  run.1.1 = Return (ToolResultValue (empty_result "rust ownership"))
  ∧ trials run.2 = 1%nat
  ∧ outer run.2 = [EvTrial].
Proof.
  cbv zeta.
  eassert (Htrial : _try_all_engines unit down_search lenient lenient
                      cfg_default "rust ownership" 5 tt
                    = (Return _, _, _))
    by (vm_compute; reflexivity).
  destruct (empty_outcome_ends_execute unit down_search lenient lenient
              object_bool cfg_default "rust ownership" 5 tt _ _ _
              ltac:(vm_compute; discriminate) Htrial eq_refl eq_refl)
    as (Hrun & Htrials & Houter).
  rewrite Hrun. repeat split; assumption.
Defined.


(** Under the truth value [results_bool], a second trial that succeeds:
    one sleep, two trials, and the outcome of the second trial comes
    back. *)
Example execute_recovers_on_second_trial :
  let run := execute nat flaky_search lenient lenient results_bool cfg_default
               "rust ownership" 5 0%nat in
  outer run.2 = [EvTrial; EvSleep 60; EvTrial]
  ∧ backoffs run.2 = [1; 2]%Z
  ∧ ∃ r, run.1.1 = Return (ToolResultValue r)
         ∧ url <$> results (structured_data r) = ["https://doc.rust-lang.org/book/"].
Proof. vm_compute. repeat split. eexists. split; reflexivity. Qed.

(** ** Instances of the further properties *)

Lemma empty_order_touches_no_engine_witness :
  _try_all_engines nat demo_search lenient lenient cfg_unknown "q" 10 7%nat
  = (Return (empty_result "q"), 7%nat, [EvTrial]).
Proof.
  apply (proj2 (empty_order_touches_no_engine nat demo_search lenient lenient
                  cfg_unknown)).
  reflexivity.
Defined.

Lemma preferred_engine_goes_first_witness :
  ∃ rest, _get_engine_order cfg_demo = "google" :: rest ∧ "google" ∉ rest.
Proof.
  apply (proj1 (preferred_engine_goes_first lenient lenient cfg_demo)).
  vm_compute. eauto.
Defined.

Lemma empty_answer_not_retried_witness :
  try_engines nat demo_search lenient lenient ["baidu"] "q" 10 0%nat
  = (Return (empty_result "q"), 1%nat,
     [EvInfoAttempt "baidu"; EvSearch BaiduSearchEngine "q" 10 (Return [])]).
Proof.
  exact (empty_answer_not_retried nat demo_search lenient lenient
           "baidu" [] BaiduSearchEngine "q" 10 0%nat 1%nat eq_refl eq_refl).
Defined.

Lemma dead_engine_is_skipped_witness :
  ∃ e1 e2 e3 w3,
    try_engines unit down_search lenient lenient ["bing"] "q" 10 tt
    = (Return (empty_result "q"), w3,
       [EvInfoAttempt "bing";
        EvSearch BingSearchEngine "q" 10 (Raise e1); EvBackoff 1;
        EvSearch BingSearchEngine "q" 10 (Raise e2); EvBackoff 2;
        EvSearch BingSearchEngine "q" 10 (Raise e3);
        EvPrintFailed "bing" (RetryError e3)]).
Proof.
  destruct (dead_engine_is_skipped unit down_search lenient lenient
              "bing" [] BingSearchEngine "q" 10 tt eq_refl
              (λ w0, ex_intro _ (EngineError "connection refused")
                       (ex_intro _ w0 eq_refl)))
    as (e1 & e2 & e3 & w3 & H).
  exists e1, e2, e3, w3. exact H.
Defined.

Lemma empty_trial_attempted_every_engine_witness :
  let run := _try_all_engines unit down_search lenient lenient cfg_demo
               "q" 10 tt in
  ∃ r, run.1.1 = Return r
       ∧ r = empty_result "q"
       ∧ attempted run.2 = ["google"; "baidu"; "duckduckgo"; "bing"].
Proof.
  cbv zeta. eexists. split; [vm_compute; reflexivity|].
  eapply (empty_trial_attempted_every_engine unit down_search lenient lenient
            cfg_demo "q" 10 tt).
  - vm_compute. reflexivity.
  - reflexivity.
Defined.

Lemma execute_returns_last_trial_outcome_witness :
  ∃ r t w0 t0 before,
    execute nat flaky_search lenient lenient results_bool cfg_default
      "rust ownership" 5 0%nat = (Return (ToolResultValue r), 4%nat, t)
    ∧ _try_all_engines nat flaky_search lenient lenient cfg_default
        "rust ownership" 5 w0 = (Return r, 4%nat, t0)
    ∧ t = before ++ t0
    ∧ query (structured_data r) = "rust ownership".
Proof.
  eassert (Hrun : execute nat flaky_search lenient lenient results_bool
                    cfg_default "rust ownership" 5 0%nat
                  = (Return (ToolResultValue _), _, _))
    by (vm_compute; reflexivity).
  destruct (execute_returns_last_trial_outcome nat flaky_search lenient lenient
              results_bool cfg_default "rust ownership" 5 0%nat _ _ _ Hrun)
    as (w0 & t0 & before & Htrial & Ht & _ & Hquery).
  eexists _, _, w0, t0, before. split; [exact Hrun|].
  split; [exact Htrial|]. split; [exact Ht | exact Hquery].
Defined.

Lemma negative_max_retries_no_search_witness :
  execute unit down_search lenient lenient object_bool cfg_negative "q" 10 tt
  = (Return EmptyListValue, tt, []).
Proof.
  apply (negative_max_retries_no_search unit down_search lenient lenient
           object_bool cfg_negative "q" 10 tt).
  vm_compute. reflexivity.
Defined.
